(** * newsletter_generator: a shallow embedding of [app.py]

    The development follows the helper functions of [app.py] one by one:
    the scraper ([scrap_page]), the row enrichment ([process_scrape_csv]),
    the image helpers ([download_image], [save_data_uri_as_file],
    [embed_image_as_data_uri]), the package builder ([process_csv]) and the
    preview inliner ([inline_base_images]).

    Python values are modelled as follows.
    - [str] is [string]; a character is an [ascii], i.e. a code point below
      256.  [bytes] is [list byte].
    - a CSV row (a [dict] produced by [csv.DictReader]) is a
      [gmap string pyval]; a cell is a string or [None] (the reader's
      [restval] for short lines).
    - an exception is a value of [exn]; a function that may raise returns a
      [result]; code that touches the disk or calls [st.error]/[st.info]
      runs in the state-and-exception monad [M] over [world].
    - the libraries the program calls but does not define ([requests],
      [bs4]'s parser, [csv], [jinja2], [shutil], [os.makedirs]) are the
      fields of the class [Externals]. *)

From Stdlib Require Import String Ascii ZArith NArith List Lia Bool DecimalString.
From Stdlib Require Import DecimalNat.
From Stdlib Require Import Strings.Byte.
From stdpp Require Import base option gmap strings list.

Local Open Scope string_scope.
Local Open Scope list_scope.
Local Set Warnings "-register-all".

(** ** Python strings *)

Module Py.

(** [s.startswith(p)] *)
Definition startswith (s p : string) : bool := String.prefix p s.

(** [s[:n]] for [n >= 0] *)
Fixpoint take (n : nat) (s : string) : string :=
  match n, s with
  | S n', String a s' => String a (take n' s')
  | _, _ => EmptyString
  end.

(** [s[n:]] for [n >= 0] *)
Fixpoint drop (n : nat) (s : string) : string :=
  match n, s with
  | S n', String _ s' => drop n' s'
  | _, _ => s
  end.

(** [s.partition(c)] for a one-character separator, [None] when the
    separator does not occur. *)
Fixpoint partition (c : ascii) (s : string) : option (string * string) :=
  match s with
  | EmptyString => None
  | String a s' =>
      if Ascii.eqb a c then Some (EmptyString, s')
      else match partition c s' with
           | Some (h, t) => Some (String a h, t)
           | None => None
           end
  end.

(** [s.split(c)] for a one-character separator. *)
Fixpoint split (c : ascii) (s : string) : list string :=
  match s with
  | EmptyString => [EmptyString]
  | String a s' =>
      if Ascii.eqb a c then EmptyString :: split c s'
      else match split c s' with
           | h :: t => String a h :: t
           | [] => [String a EmptyString]
           end
  end.

(** [s.split(c, 1)] *)
Definition split1 (c : ascii) (s : string) : list string :=
  match partition c s with
  | Some (h, t) => [h; t]
  | None => [s]
  end.

(** [s.rfind(c)]: index of the last occurrence ([None] for Python's -1). *)
Fixpoint rfind (c : ascii) (s : string) : option nat :=
  match s with
  | EmptyString => None
  | String a s' =>
      match rfind c s' with
      | Some i => Some (S i)
      | None => if Ascii.eqb a c then Some 0 else None
      end
  end.

(** [s.replace(old, new)]: every non-overlapping occurrence, left to
    right.  With an empty [old] Python inserts [new] before every
    character and at the end.  [skip] counts the characters still to be
    skipped inside an occurrence just replaced. *)
Fixpoint replace_from (old new : string) (skip : nat) (s : string) : string :=
  match skip with
  | S k =>
      match s with
      | EmptyString => EmptyString
      | String _ s' => replace_from old new k s'
      end
  | O =>
      match s with
      | EmptyString => if String.eqb old EmptyString then new else EmptyString
      | String a s' =>
          if String.eqb old EmptyString then new +:+ String a (replace_from old new 0 s')
          else if String.prefix old s
               then new +:+ replace_from old new (String.length old - 1) s'
               else String a (replace_from old new 0 s')
      end
  end.

Definition replace (s old new : string) : string := replace_from old new 0 s.

(** [str.lower] on one character: ASCII capitals and the Latin-1
    capitals (all of 192..222 but the multiplication sign 215). *)
Definition lower_char (a : ascii) : ascii :=
  let n := nat_of_ascii a in
  if ((65 <=? n) && (n <=? 90))%nat
     || ((192 <=? n) && (n <=? 222) && negb (n =? 215))%nat
  then ascii_of_nat (n + 32) else a.

Fixpoint lower (s : string) : string :=
  match s with
  | EmptyString => EmptyString
  | String a s' => String (lower_char a) (lower s')
  end.

(** [c.isspace()] for a code point below 256. *)
Definition isspace (a : ascii) : bool :=
  let n := nat_of_ascii a in
  (((9 <=? n) && (n <=? 13)) || ((28 <=? n) && (n <=? 32))
   || (n =? 133) || (n =? 160))%nat.

Fixpoint lstrip (s : string) : string :=
  match s with
  | String a s' => if isspace a then lstrip s' else s
  | EmptyString => EmptyString
  end.

Fixpoint rstrip (s : string) : string :=
  match s with
  | EmptyString => EmptyString
  | String a s' =>
      match rstrip s' with
      | EmptyString => if isspace a then EmptyString else String a EmptyString
      | r => String a r
      end
  end.

(** [s.strip()] *)
Definition strip (s : string) : string := rstrip (lstrip s).

(** [s.rstrip(c)] for a one-character set. *)
Fixpoint rstrip_char (c : ascii) (s : string) : string :=
  match s with
  | EmptyString => EmptyString
  | String a s' =>
      match rstrip_char c s' with
      | EmptyString => if Ascii.eqb a c then EmptyString else String a EmptyString
      | r => String a r
      end
  end.

(** [sep.join(l)] *)
Fixpoint join (sep : string) (l : list string) : string :=
  match l with
  | [] => EmptyString
  | [x] => x
  | x :: l' => x +:+ sep +:+ join sep l'
  end.

(** [str(n)] for a non-negative integer. *)
Definition str (n : nat) : string := NilEmpty.string_of_uint (Nat.to_uint n).

(** [bool(s)] for a string. *)
Definition nonempty (s : string) : bool := negb (String.eqb s EmptyString).

(** All characters of [s] satisfy [p]. *)
Fixpoint all (p : ascii -> bool) (s : string) : bool :=
  match s with
  | EmptyString => true
  | String a s' => p a && all p s'
  end.

(** The character [c] does not occur in [s]. *)
Definition lacks (c : ascii) (s : string) : bool :=
  all (fun a => negb (Ascii.eqb a c)) s.

End Py.

(** ** Exceptions and results *)

(** The exceptions the program can meet.  All of them are subclasses of
    Python's [Exception], so every [except Exception] clause catches them. *)
Inductive exn : Type :=
| KeyError (key : string)          (* [row[k]] on a missing key *)
| IndexError                       (* [l[i]] out of range *)
| ValueError                       (* failed unpacking, non-ASCII base64 text *)
| BinasciiError                    (* [binascii.Error]: bad base64 padding *)
| OSError (path : string)          (* [open] on a missing directory, on a directory, ... *)
| HTTPError (status : Z)           (* [Response.raise_for_status] *)
| TypeError                        (* [os.path.exists(None)] *)
| LibraryError (what : string).    (* any exception raised inside a library call *)

Inductive result (A : Type) : Type :=
| Ok (a : A)
| Raise (e : exn).
Arguments Ok {A} a.
Arguments Raise {A} e.

(** [l[i]] *)
Definition getitem {A} (l : list A) (i : nat) : result A :=
  match l !! i with
  | Some x => Ok x
  | None => Raise IndexError
  end.

(** ** [os.path] (the POSIX flavour) *)

Module path.

Definition sep : ascii := "/"%char.
Definition extsep : ascii := "."%char.

(** [os.path.join(a, b)] *)
Definition join (a b : string) : string :=
  if Py.startswith b "/" then b
  else if negb (Py.nonempty a) || String.eqb (Py.drop (String.length a - 1) a) "/"
       then a +:+ b
       else a +:+ "/" +:+ b.

(** [os.path.basename(p)]: what follows the last slash. *)
Definition basename (p : string) : string :=
  match Py.rfind sep p with
  | Some i => Py.drop (S i) p
  | None => p
  end.

(** [os.path.dirname(p)]: what precedes the last slash, without trailing
    slashes unless it consists of slashes only. *)
Definition dirname (p : string) : string :=
  match Py.rfind sep p with
  | Some i =>
      let head := Py.take (S i) p in
      if Py.all (Ascii.eqb sep) head then head else Py.rstrip_char sep head
  | None => EmptyString
  end.

(** [os.path.splitext(p)]: the extension starts at the last dot of the
    last component, unless only dots precede it in that component. *)
Definition splitext (p : string) : string * string :=
  match Py.rfind extsep p with
  | None => (p, EmptyString)
  | Some dotIndex =>
      let filenameIndex := match Py.rfind sep p with Some i => S i | None => 0 end in
      if (filenameIndex <=? dotIndex)%nat
         && negb (Py.all (Ascii.eqb extsep)
                    (Py.take (dotIndex - filenameIndex) (Py.drop filenameIndex p)))
      then (Py.take dotIndex p, Py.drop dotIndex p)
      else (p, EmptyString)
  end.

End path.

(** ** [base64] *)

Definition bytes : Type := list byte.

Module base64.

Definition alphabet : string :=
  "ABCDEFGHIJKLMNOPQRSTUVWXYZabcdefghijklmnopqrstuvwxyz0123456789+/".

(** The value of a character of the alphabet ([table_a2b_base64]), [None]
    for any other character. *)
Definition a2b_char (c : ascii) : option N :=
  let n := N_of_ascii c in
  if ((65 <=? n) && (n <=? 90))%N then Some (n - 65)%N
  else if ((97 <=? n) && (n <=? 122))%N then Some (n - 71)%N
  else if ((48 <=? n) && (n <=? 57))%N then Some (n + 4)%N
  else if (n =? 43)%N then Some 62%N
  else if (n =? 47)%N then Some 63%N
  else None.

Definition byte_of_N (n : N) : byte :=
  match Byte.of_N (N.land n 255) with
  | Some b => b
  | None => x00
  end.

(** [binascii.a2b_base64] without strict mode: characters outside the
    alphabet are skipped; a pad character ends the input once the pads
    seen complete the current quad; leftover data characters at the end
    of the input are an error. *)
Fixpoint a2b_loop (s : string) (quad_pos : nat) (leftchar : N) (pads : nat)
    (out : bytes) : result bytes :=
  match s with
  | EmptyString => if (quad_pos =? 0)%nat then Ok out else Raise BinasciiError
  | String c s' =>
      if Ascii.eqb c "="%char then
        if (2 <=? quad_pos)%nat then
          if (4 <=? quad_pos + S pads)%nat then Ok out
          else a2b_loop s' quad_pos leftchar (S pads) out
        else a2b_loop s' quad_pos leftchar pads out
      else
        match a2b_char c with
        | None => a2b_loop s' quad_pos leftchar pads out
        | Some this_ch =>
            match quad_pos with
            | 0 => a2b_loop s' 1 this_ch 0 out
            | 1 => a2b_loop s' 2 (N.land this_ch 15) 0
                     (out ++ [byte_of_N (N.lor (N.shiftl leftchar 2) (N.shiftr this_ch 4))])
            | 2 => a2b_loop s' 3 (N.land this_ch 3) 0
                     (out ++ [byte_of_N (N.lor (N.shiftl leftchar 4) (N.shiftr this_ch 2))])
            | _ => a2b_loop s' 0 0%N 0
                     (out ++ [byte_of_N (N.lor (N.shiftl leftchar 6) this_ch)])
            end
        end
  end.

(** [base64.b64decode(s)] on a [str]: the text must be ASCII. *)
Definition b64decode (s : string) : result bytes :=
  if Py.all (fun c => (N_of_ascii c <? 128)%N) s then a2b_loop s 0 0%N 0 []
  else Raise ValueError.

Definition b2a_char (n : N) : ascii :=
  match String.get (N.to_nat (N.land n 63)) alphabet with
  | Some c => c
  | None => "="%char
  end.

(** [base64.b64encode(data).decode()]: three bytes give four characters,
    the last group is padded with [=]. *)
Fixpoint b64encode (data : bytes) : string :=
  match data with
  | [] => EmptyString
  | [a] =>
      let x := Byte.to_N a in
      String (b2a_char (N.shiftr x 2))
        (String (b2a_char (N.shiftl (N.land x 3) 4)) "==")
  | [a; b] =>
      let x := Byte.to_N a in
      let y := Byte.to_N b in
      String (b2a_char (N.shiftr x 2))
        (String (b2a_char (N.lor (N.shiftl (N.land x 3) 4) (N.shiftr y 4)))
           (String (b2a_char (N.shiftl (N.land y 15) 2)) "="))
  | a :: b :: c :: rest =>
      let x := Byte.to_N a in
      let y := Byte.to_N b in
      let z := Byte.to_N c in
      String (b2a_char (N.shiftr x 2))
        (String (b2a_char (N.lor (N.shiftl (N.land x 3) 4) (N.shiftr y 4)))
           (String (b2a_char (N.lor (N.shiftl (N.land y 15) 2) (N.shiftr z 6)))
              (String (b2a_char z) (b64encode rest))))
  end.

End base64.

(** ** Rows, the page tree and HTTP responses *)

(** A cell of a row: [csv.DictReader] stores a string, or [None] when the
    line is shorter than the header. *)
Inductive pyval : Type :=
| PyNone
| PyStr (s : string).

(** [bool(v)] *)
Definition truthy (v : pyval) : bool :=
  match v with
  | PyNone => false
  | PyStr s => Py.nonempty s
  end.

Abbreviation row := (gmap string pyval).

(** [row[k]] *)
Definition row_get (r : row) (k : string) : result pyval :=
  match r !! k with
  | Some v => Ok v
  | None => Raise (KeyError k)
  end.

(** The tree [BeautifulSoup] builds: text nodes and elements.  [classes] is
    the parsed [class] attribute, [attrs] the single-valued attributes,
    [contents] the children in document order. *)
Inductive node : Type :=
| NavigableString (text : string)
| Tag (name : string) (classes : list string) (attrs : gmap string string)
      (contents : list node).

(** The [BeautifulSoup] object itself: a nameless root above the parsed nodes. *)
Definition document (contents : list node) : node :=
  Tag "[document]" [] ∅ contents.

Record Response : Type := {
  status_code : Z;
  content : bytes;
}.

(** [Response.raise_for_status()]: an [HTTPError] for the 4xx and 5xx
    statuses, nothing for any other status. *)
Definition raise_for_status (r : Response) : result unit :=
  if ((400 <=? status_code r) && (status_code r <? 600))%Z
  then Raise (HTTPError (status_code r)) else Ok tt.

(** ** The world: the disk and the notices shown to the user *)

(** Paths are compared as written (no normalisation); [dirs] holds the
    existing directories without a trailing slash, [files] the regular files
    with their contents. *)
Record filesystem : Type := {
  files : gmap string bytes;
  dirs : gset string;
}.

(** The text of each [st.error] / [st.info] call of the program, by call
    site, with the values interpolated into it. *)
Inductive message : Type :=
| msg_download (image_url : string) (e : exn)
| msg_data_uri_convert (e : exn)
| msg_scrape (url : string) (e : exn)
| msg_data_uri_save (e : exn)
| msg_no_csv_data
| msg_render (package_identifier : string) (e : exn)
| msg_copy (package_identifier : string) (e : exn)
| msg_write (package_identifier : string) (e : exn)
| msg_generated (package_identifier : string).

Inductive notice : Type :=
| st_error (m : message)
| st_info (m : message).

Record world : Type := {
  disk : filesystem;
  notices : list notice;
}.

(** ** The monad of the effectful functions *)

Definition M (A : Type) : Type := world -> result A * world.

Definition ret {A} (a : A) : M A := fun w => (Ok a, w).

Definition bind {A B} (m : M A) (k : A -> M B) : M B :=
  fun w =>
    match m w with
    | (Ok a, w') => k a w'
    | (Raise e, w') => (Raise e, w')
    end.

(** A pure computation that may raise. *)
Definition lift {A} (r : result A) : M A := fun w => (r, w).

(** [try: m  except Exception as e: h e] *)
Definition try_except {A} (m : M A) (h : exn -> M A) : M A :=
  fun w =>
    match m w with
    | (Ok a, w') => (Ok a, w')
    | (Raise e, w') => h e w'
    end.

(** [st.error(...)] and [st.info(...)] *)
Definition notify (n : notice) : M unit :=
  fun w => (Ok tt, {| disk := disk w; notices := notices w ++ [n] |}).

(** A library call that works on the disk only. *)
Definition on_disk {A} (f : filesystem -> result A * filesystem) : M A :=
  fun w =>
    let '(r, d) := f (disk w) in
    (r, {| disk := d; notices := notices w |}).

Declare Scope py_scope.
Delimit Scope py_scope with py.
Notation "x <- m ;; k" := (bind m (fun x => k))
  (at level 100, m at next level, right associativity) : py_scope.
Notation "m ;;; k" := (bind m (fun _ => k))
  (at level 100, right associativity) : py_scope.
Local Open Scope py_scope.

(** ** Files *)

Module fs.

(** [os.path.isdir(p)]; the empty path stands for the working directory. *)
Definition isdir (d : filesystem) (p : string) : bool :=
  String.eqb p EmptyString
  || (Py.nonempty p && Py.all (Ascii.eqb path.sep) p)
  || bool_decide (Py.rstrip_char path.sep p ∈ dirs d).

Definition isfile (d : filesystem) (p : string) : bool :=
  bool_decide (is_Some (files d !! p)).

(** [os.path.exists(p)] *)
Definition exists_ (d : filesystem) (p : string) : bool :=
  Py.nonempty p && (isfile d p || isdir d p).

(** [open(p, 'wb')] (or ['w']): creates or empties the file; fails on a
    directory and when the parent directory is missing. *)
Definition open_w (p : string) : M unit :=
  on_disk (fun d =>
    if negb (Py.nonempty p) || isdir d p || negb (isdir d (path.dirname p))
    then (Raise (OSError p), d)
    else (Ok tt, {| files := <[p := []]> (files d); dirs := dirs d |})).

(** [f.write(data)] on a file opened for writing at [p]. *)
Definition write (p : string) (data : bytes) : M unit :=
  on_disk (fun d => (Ok tt, {| files := <[p := data]> (files d); dirs := dirs d |})).

(** [open(p, 'rb').read()] *)
Definition read (p : string) : M bytes :=
  on_disk (fun d =>
    match files d !! p with
    | Some data => (Ok data, d)
    | None => (Raise (OSError p), d)
    end).

End fs.

(** [s.encode('utf-8')] for code points below 256. *)
Fixpoint utf8_encode (s : string) : bytes :=
  match s with
  | EmptyString => []
  | String a s' =>
      let n := N_of_ascii a in
      if (n <? 128)%N then base64.byte_of_N n :: utf8_encode s'
      else base64.byte_of_N (N.lor 192 (N.shiftr n 6))
           :: base64.byte_of_N (N.lor 128 (N.land n 63)) :: utf8_encode s'
  end.

(** ** The libraries the program calls *)

Class Externals : Type := {
  (** [requests.get(url, timeout=10)]: a response, or a connection error
      or timeout *)
  requests_get : string -> result Response;
  (** [BeautifulSoup(content, 'html.parser')]: the nodes of the page *)
  BeautifulSoup : bytes -> result (list node);
  (** [list(csv.DictReader(io.StringIO(b.decode('utf-8-sig')), delimiter=';'))] *)
  DictReader : bytes -> result (list row);
  (** a compiled [jinja2] template *)
  template : Type;
  (** [Template(template_code)] *)
  Template : string -> result template;
  (** [template_obj.render] with the row as keyword arguments *)
  render : template -> row -> result string;
  (** [os.makedirs(p, exist_ok=True)] *)
  makedirs : string -> filesystem -> result unit * filesystem;
  (** [shutil.copytree(src, dst, dirs_exist_ok=True)] *)
  copytree : string -> string -> filesystem -> result unit * filesystem;
  (** [shutil.make_archive(base_name, 'zip', root_dir)] *)
  make_archive : string -> string -> filesystem -> result unit * filesystem;
  (** the directory [tempfile.mkdtemp(prefix='template_')] returned *)
  TEMPLATE_TEMP_FOLDER : string;
}.

Definition OUTPUT_FOLDER : string := "generated_mails".

(** ** The part of [bs4] the scraper uses *)

Module bs4.

(** All nodes below [n], in document order. *)
Fixpoint descendants (n : node) : list node :=
  match n with
  | NavigableString _ => []
  | Tag _ _ _ kids => flat_map (fun k => k :: descendants k) kids
  end.

(** All (parent, child) pairs below [n], in the document order of the child. *)
Fixpoint edges (n : node) : list (node * node) :=
  match n with
  | NavigableString _ => []
  | Tag _ _ _ kids => flat_map (fun k => (n, k) :: edges k) kids
  end.

Definition is_tag (name : string) (n : node) : bool :=
  match n with
  | Tag nm _ _ _ => String.eqb nm name
  | NavigableString _ => false
  end.

Definition has_class (c : string) (n : node) : bool :=
  match n with
  | Tag _ classes _ _ => bool_decide (c ∈ classes)
  | NavigableString _ => false
  end.

(** [soup.find(name)]: the first element called [name]. *)
Definition find (name : string) (soup : node) : option node :=
  List.find (is_tag name) (descendants soup).

(** The selector [name.cls]: an element called [name] of class [cls]. *)
Definition matches_class (name cls : string) (n : node) : bool :=
  is_tag name n && has_class cls n.

(** The selector [pname.pcls > cname] on a (parent, child) pair. *)
Definition matches_child (pname pcls cname : string) (pc : node * node) : bool :=
  matches_class pname pcls (fst pc) && is_tag cname (snd pc).

(** [soup.select_one('name.cls')] *)
Definition select_one_class (name cls : string) (soup : node) : option node :=
  List.find (matches_class name cls) (descendants soup).

(** [soup.select_one('pname.pcls > cname')]: the first element called
    [cname] whose parent is a [pname] of class [pcls]. *)
Definition select_one_child (pname pcls cname : string) (soup : node) : option node :=
  snd <$> List.find (matches_child pname pcls cname) (edges soup).

(** The strings [get_text(strip=True)] collects: every text node below
    [n], stripped, the ones left empty dropped. *)
Definition stripped_strings (n : node) : list string :=
  flat_map (fun d => match d with
                     | NavigableString s =>
                         if Py.nonempty (Py.strip s) then [Py.strip s] else []
                     | Tag _ _ _ _ => []
                     end)
           (descendants n).

(** [tag.get_text(separator=sep, strip=True)] *)
Definition get_text (separator : string) (n : node) : string :=
  Py.join separator (stripped_strings n).

(** [tag.get(key, default)] *)
Definition get (n : node) (key default : string) : string :=
  match n with
  | Tag _ _ attrs _ => match attrs !! key with Some v => v | None => default end
  | NavigableString _ => default
  end.

End bs4.

(** ** [scrap_page] *)

(** The dictionary [scrap_page] returns, with its three keys. *)
Record ScrapedFields : Type := {
  title : string;
  img : string;
  lead : string;
}.

Definition empty_fields : ScrapedFields :=
  {| title := EmptyString; img := EmptyString; lead := EmptyString |}.

(** The text of the lead before truncation: [div.entry-lead] when the page
    has one, else [div.article__content] joined with spaces, else empty. *)
Definition lead_text (soup : node) : string :=
  match bs4.select_one_class "div" "entry-lead" soup with
  | Some lead_tag => bs4.get_text EmptyString lead_tag
  | None =>
      match bs4.select_one_class "div" "article__content" soup with
      | Some article_tag => bs4.get_text " " article_tag
      | None => EmptyString
      end
  end.

(** The body of the [try] block once the page has been parsed. *)
Definition extract_fields (soup : node) : ScrapedFields :=
  let h1 := bs4.find "h1" soup in
  let title := match h1 with Some t => bs4.get_text EmptyString t | None => EmptyString end in
  let img_tag := bs4.select_one_child "div" "entry-image" "img" soup in
  let img := match img_tag with Some t => bs4.get t "src" EmptyString | None => EmptyString end in
  let lead := Py.take 150 (lead_text soup) in
  {| title := title; img := img; lead := lead |}.

(** [header, b64data = l] *)
Definition unpack2 (l : list string) : result (string * string) :=
  match l with
  | [a; b] => Ok (a, b)
  | _ => Raise ValueError
  end.

(** [r >>= k] on results: the next statement runs unless [r] raised. *)
Definition and_then {A B} (r : result A) (k : A -> result B) : result B :=
  match r with
  | Ok a => k a
  | Raise e => Raise e
  end.

(** The four splitting statements of [save_data_uri_as_file]: the file
    extension [ext] and the payload [b64data] of a data URI. *)
Definition data_uri_parts (data_uri : string) : result (string * string) :=
  and_then (unpack2 (Py.split1 "," data_uri)) (fun hb =>
  let header := fst hb in
  let b64data := snd hb in
  and_then (getitem (Py.split ";" header) 0) (fun mime_part =>
  and_then (getitem (Py.split ":" mime_part) 1) (fun mime_type =>
  and_then (getitem (Py.split "/" mime_type) 1) (fun ext =>
  Ok (ext, b64data))))).

Section program.

Context `{Externals}.

(** The fetch and parse steps at the head of the [try] block. *)
Definition fetch_soup (url : string) : result node :=
  match requests_get url with
  | Raise e => Raise e
  | Ok r =>
      match raise_for_status r with
      | Raise e => Raise e
      | Ok _ =>
          match BeautifulSoup (content r) with
          | Raise e => Raise e
          | Ok nodes => Ok (document nodes)
          end
      end
  end.

Definition scrap_page (url : string) : M ScrapedFields :=
  try_except
    (soup <- lift (fetch_soup url) ;;
     ret (extract_fields soup))
    (fun e =>
       notify (st_error (msg_scrape url e)) ;;;
       ret empty_fields).

(** ** [download_image], [embed_image_as_data_uri], [save_data_uri_as_file] *)

(** Returns [None], the data URI itself, or the path of the saved file. *)
Definition download_image (image_url dest_folder : string) : M (option string) :=
  if negb (Py.nonempty image_url) then ret None
  else if Py.startswith image_url "data:" then ret (Some image_url)
  else
    try_except
      (response <- lift (requests_get image_url) ;;
       lift (raise_for_status response) ;;;
       first <- lift (getitem (Py.split "?" image_url) 0) ;;
       let filename := path.basename first in
       let local_path := path.join dest_folder filename in
       fs.open_w local_path ;;;
       fs.write local_path (content response) ;;;
       ret (Some local_path))
      (fun e =>
         notify (st_error (msg_download image_url e)) ;;;
         ret None).

(** The MIME type [embed_image_as_data_uri] announces for a path. *)
Definition mime_of_path (image_path : string) : string :=
  let ext := Py.lower (Py.drop 1 (snd (path.splitext image_path))) in
  if String.eqb ext "svg" then "image/svg+xml" else "image/" +:+ ext.

(** [image_path] is a string or [None]: [download_image] returns [None]
    for a failed download and [generate_preview] hands its result over as it
    is.  [os.path.exists(None)] raises [TypeError], before the [try] block. *)
Definition embed_image_as_data_uri (image_path : option string) : M string :=
  match image_path with
  | None => lift (Raise TypeError)
  | Some image_path =>
      fun w =>
        if negb (fs.exists_ (disk w) image_path) then (Ok EmptyString, w)
        else
          let mime := mime_of_path image_path in
          try_except
            (data <- fs.read image_path ;;
             let b64 := base64.b64encode data in
             ret ("data:" +:+ mime +:+ ";base64," +:+ b64))
            (fun e =>
               notify (st_error (msg_data_uri_convert e)) ;;;
               ret EmptyString)
            w
  end.

Definition save_data_uri_as_file (data_uri dest_folder default_filename : string)
    : M (option string) :=
  try_except
    (if negb (Py.startswith data_uri "data:") then ret None
     else
       parts <- lift (data_uri_parts data_uri) ;;
       let ext := fst parts in
       let b64data := snd parts in
       let filename := default_filename +:+ "." +:+ ext in
       let dest_path := path.join dest_folder filename in
       fs.open_w dest_path ;;;
       data <- lift (base64.b64decode b64data) ;;
       fs.write dest_path data ;;;
       ret (Some dest_path))
    (fun e =>
       notify (st_error (msg_data_uri_save e)) ;;;
       ret None).

(** [zip_output_for_folder]: the archive is named after the package. *)
Definition zip_output_for_folder (folder package_identifier : string) : M string :=
  let zip_filename := package_identifier in
  on_disk (make_archive zip_filename folder) ;;;
  ret (zip_filename +:+ ".zip").

(** ** [process_scrape_csv] *)

(** One of the two blocks of the loop body: the block for [url1] is
    [scrape_block url1 title1 img1 lead1], the block for [url2] is the
    same with the suffix 2.  The assignment of [row[url]] to itself reads
    the key, also in the [else] branch. *)
Definition scrape_block (url_key title_key img_key lead_key : string) (r : row)
    : M row :=
  match r !! url_key with
  | Some (PyStr url) =>
      if Py.nonempty url then
        data <- scrap_page url ;;
        v <- lift (row_get r url_key) ;;
        ret (<[lead_key := PyStr (lead data)]>
               (<[img_key := PyStr (img data)]>
                  (<[title_key := PyStr (title data)]> (<[url_key := v]> r))))
      else
        v <- lift (row_get r url_key) ;;
        ret (<[lead_key := PyStr EmptyString]>
               (<[img_key := PyStr EmptyString]>
                  (<[title_key := PyStr EmptyString]> (<[url_key := v]> r))))
  | _ =>
      v <- lift (row_get r url_key) ;;
      ret (<[lead_key := PyStr EmptyString]>
             (<[img_key := PyStr EmptyString]>
                (<[title_key := PyStr EmptyString]> (<[url_key := v]> r))))
  end.

(** The body of [for row in reader]. *)
Definition enrich_row (r : row) : M row :=
  r1 <- scrape_block "url1" "title1" "img1" "lead1" r ;;
  scrape_block "url2" "title2" "img2" "lead2" r1.

Fixpoint enrich_rows (reader : list row) : M (list row) :=
  match reader with
  | [] => ret []
  | r :: rest =>
      r' <- enrich_row r ;;
      rest' <- enrich_rows rest ;;
      ret (r' :: rest')
  end.

Definition process_scrape_csv (file_bytes : bytes) : M (list row) :=
  reader <- lift (DictReader file_bytes) ;;
  match reader with
  | [] => notify (st_error msg_no_csv_data) ;;; ret []
  | _ => enrich_rows reader
  end.

(** ** [process_csv] *)

(** [package_identifier] as the head of the loop body computes it. *)
Definition package_identifier (naming_variable : option string) (r : row)
    (row_index : nat) : string :=
  match naming_variable with
  | Some k =>
      if Py.nonempty k then
        match r !! k with
        | Some (PyStr v) => if Py.nonempty v then v else Py.str row_index
        | _ => Py.str row_index
        end
      else Py.str row_index
  | None => Py.str row_index
  end.

(** [row[col] = os.path.basename(image_path)] when [image_path] is
    truthy, else the row stays as it is. *)
Definition store_basename (r : row) (col : string) (image_path : option string) : row :=
  match image_path with
  | Some p => if Py.nonempty p then <[col := PyStr (path.basename p)]> r else r
  | None => r
  end.

(** The body of [for col in dynamic_image_columns]. *)
Definition process_csv_column (package_folder : string) (r : row) (col : string)
    : M row :=
  match r !! col with
  | Some (PyStr v) =>
      if Py.nonempty v then
        if Py.startswith v "http" then
          image_path <- download_image v package_folder ;;
          ret (store_basename r col image_path)
        else if Py.startswith v "data:" then
          image_path <- save_data_uri_as_file v package_folder col ;;
          ret (store_basename r col image_path)
        else ret r
      else ret r
  | _ => ret r
  end.

Fixpoint process_csv_columns (package_folder : string) (r : row) (cols : list string)
    : M row :=
  match cols with
  | [] => ret r
  | col :: rest =>
      r' <- process_csv_column package_folder r col ;;
      process_csv_columns package_folder r' rest
  end.

(** Runs [m] and hands its outcome over as a value, for the [try] blocks
    whose handler ends in [continue]. *)
Definition attempt {A} (m : M A) : M (result A) :=
  fun w => let '(r, w') := m w in (Ok r, w').

(** The head of the loop body, up to the rendering: the package folder is
    made and the image columns are resolved into it. *)
Definition process_csv_images (package_folder : string)
    (dynamic_image_columns : option (list string)) (r : row) : M row :=
  on_disk (makedirs package_folder) ;;;
  match dynamic_image_columns with
  | Some cols => process_csv_columns package_folder r cols
  | None => ret r
  end.

(** The body of [for row_index, row in enumerate(data_rows, start=1)]: the
    row as it is left, and [zip_files] as it is left. *)
Definition process_csv_row (template_obj : template)
    (naming_variable : option string) (dynamic_image_columns : option (list string))
    (row_index : nat) (r : row) (zip_files : list string) : M (row * list string) :=
  let package_identifier := package_identifier naming_variable r row_index in
  let package_folder := path.join OUTPUT_FOLDER package_identifier in
  r <- process_csv_images package_folder dynamic_image_columns r ;;
  match render template_obj r with
  | Raise e =>
      notify (st_error (msg_render package_identifier e)) ;;;
      ret (r, zip_files)
  | Ok rendered_html =>
      copied <- attempt (on_disk (copytree TEMPLATE_TEMP_FOLDER package_folder)) ;;
      match copied with
      | Raise e =>
          notify (st_error (msg_copy package_identifier e)) ;;;
          ret (r, zip_files)
      | Ok _ =>
          let output_html_path := path.join package_folder "index.html" in
          written <- attempt (fs.open_w output_html_path ;;;
                              fs.write output_html_path (utf8_encode rendered_html)) ;;
          match written with
          | Raise e =>
              notify (st_error (msg_write package_identifier e)) ;;;
              ret (r, zip_files)
          | Ok _ =>
              notify (st_info (msg_generated package_identifier)) ;;;
              zip_file <- zip_output_for_folder package_folder package_identifier ;;
              ret (r, zip_files ++ [zip_file])
          end
      end
  end.

Fixpoint process_csv_loop (template_obj : template)
    (naming_variable : option string) (dynamic_image_columns : option (list string))
    (row_index : nat) (data_rows : list row) (zip_files : list string)
    : M (list string * list row) :=
  match data_rows with
  | [] => ret (zip_files, [])
  | r :: rest =>
      step <- process_csv_row template_obj naming_variable dynamic_image_columns
                row_index r zip_files ;;
      done <- process_csv_loop template_obj naming_variable dynamic_image_columns
                (S row_index) rest (snd step) ;;
      ret (fst done, fst step :: snd done)
  end.

(** [process_csv] returns [zip_files]; the rows, which it changes in
    place, are returned next to it. *)
Definition process_csv (data_rows : list row) (template_code : string)
    (naming_variable : option string) (dynamic_image_columns : option (list string))
    : M (list string * list row) :=
  template_obj <- lift (Template template_code) ;;
  process_csv_loop template_obj naming_variable dynamic_image_columns 1 data_rows [].

(** ** [inline_base_images] *)

Definition is_quote (c : ascii) : bool :=
  Ascii.eqb c (ascii_of_nat 34) || Ascii.eqb c (ascii_of_nat 39).

(** The lazy group followed by the closing quote class: the characters up
    to the first quote, with that quote; no match when a line feed or the
    end of the text comes first. *)
Fixpoint lazy_group (s : string) : option (string * ascii) :=
  match s with
  | EmptyString => None
  | String c s' =>
      if is_quote c then Some (EmptyString, c)
      else if Ascii.eqb c (ascii_of_nat 10) then None
      else match lazy_group s' with
           | Some (g, q) => Some (String c g, q)
           | None => None
           end
  end.

(** A match of the pattern at the head of [s]: [group(0)] and [group(1)]. *)
Definition match_src (s : string) : option (string * string) :=
  if String.prefix "src=" s then
    match Py.drop 4 s with
    | String q1 rest =>
        if is_quote q1 then
          match lazy_group rest with
          | Some (g, q2) =>
              Some ("src=" +:+ String q1 (g +:+ String q2 EmptyString), g)
          | None => None
          end
        else None
    | EmptyString => None
    end
  else None.

(** The inner function [replace_src], on [group(0)] and [group(1)]. *)
Definition replace_src (base_folder : string) (group0 src : string) : M string :=
  if Py.startswith src "data:" then ret group0
  else
    let file_path := path.join base_folder src in
    fun w =>
      if fs.exists_ (disk w) file_path then
        (data_uri <- embed_image_as_data_uri (Some file_path) ;;
         ret (Py.replace group0 src data_uri)) w
      else (Ok group0, w).

(** [pattern.sub(replace_src, html_text)]: the matches are found left to
    right and do not overlap; [skip] counts the characters of the match
    just replaced that are still to be passed over. *)
Fixpoint sub_src (base_folder : string) (skip : nat) (html_text : string) : M string :=
  match skip with
  | S k =>
      match html_text with
      | EmptyString => ret EmptyString
      | String _ s' => sub_src base_folder k s'
      end
  | O =>
      match html_text with
      | EmptyString => ret EmptyString
      | String c s' =>
          match match_src html_text with
          | Some (group0, src) =>
              replaced <- replace_src base_folder group0 src ;;
              rest <- sub_src base_folder (String.length group0 - 1) s' ;;
              ret (replaced +:+ rest)
          | None =>
              rest <- sub_src base_folder 0 s' ;;
              ret (String c rest)
          end
      end
  end.

Definition inline_base_images (html_text base_folder : string) : M string :=
  sub_src base_folder 0 html_text.

End program.

(** * A concrete world for the examples *)

Module demo.

(** A page with none of the elements the scraper looks for. *)
Definition plain_page : list node :=
  [Tag "html" [] ∅ [Tag "body" [] ∅ [Tag "p" [] ∅ [NavigableString "hello"]]]].

(** A page with a heading, an image wrapper and an article body. *)
Definition article_page : list node :=
  [Tag "html" [] ∅
     [Tag "body" [] ∅
        [Tag "div" ["entry-image"] ∅
           [Tag "p" [] ∅ [Tag "img" [] {[ "src" := "nested.png" ]} []];
            Tag "img" [] {[ "src" := "cover.png" ]} []];
         Tag "h1" [] ∅ [NavigableString " Hello "; Tag "b" [] ∅ [NavigableString "World  "]];
         Tag "div" ["wide"; "article__content"] ∅
           [NavigableString " one "; Tag "p" [] ∅ [NavigableString "two"];
            NavigableString "   "]]]].

(** [n] times the letter a. *)
Fixpoint letters (n : nat) : string :=
  match n with
  | O => EmptyString
  | S n' => String "a"%char (letters n')
  end.

(** A page whose lead container holds 151 characters. *)
Definition long_page : list node :=
  [Tag "html" [] ∅
     [Tag "body" [] ∅ [Tag "div" ["entry-lead"] ∅ [NavigableString (letters 151)]]]].

Definition get (url : string) : result Response :=
  if String.eqb url "https://example.com/a" then
    Ok {| status_code := 200; content := [x00] |}
  else if String.eqb url "https://example.com/article" then
    Ok {| status_code := 200; content := [x01] |}
  else if String.eqb url "https://example.com/long" then
    Ok {| status_code := 200; content := [x02] |}
  else if String.eqb url "https://example.com/choices" then
    Ok {| status_code := 300; content := [x01] |}
  else if String.eqb url "https://example.com/missing" then
    Ok {| status_code := 404; content := [x01] |}
  else if String.eqb url "https://example.com/garbled" then
    Ok {| status_code := 200; content := [xff] |}
  else if String.eqb url "http://cdn.example.com/s?v=1" then
    Ok {| status_code := 200; content := [x42] |}
  else Raise (LibraryError "ConnectionError").

Definition parse (content : bytes) : result (list node) :=
  match content with
  | [x00] => Ok plain_page
  | [x01] => Ok article_page
  | [x02] => Ok long_page
  | _ => Raise (LibraryError "ParserRejectedMarkup")
  end.

(** The table of one line [42] under the header [ID]; the same table with
    the two URL columns. *)
Definition read_rows (file_bytes : bytes) : result (list row) :=
  match file_bytes with
  | [x01] => Ok [ {[ "ID" := PyStr "42" ]} ]
  | [x02] => Ok [ {[ "ID" := PyStr "42"; "url1" := PyStr "https://example.com/a";
                     "url2" := PyNone ]} ]
  | _ => Raise (LibraryError "UnicodeDecodeError")
  end.

(** Templates are kept as their text; rendering fails on a row whose [ID]
    is the word bad, copying fails into the package called nocopy. *)
Definition render_text (t : string) (r : row) : result string :=
  match r !! "ID" with
  | Some (PyStr id) =>
      if String.eqb id "bad" then Raise (LibraryError "UndefinedError") else Ok t
  | _ => Ok t
  end.

Definition mkdirs (p : string) (d : filesystem) : result unit * filesystem :=
  (Ok tt, {| files := files d; dirs := {[ p ]} ∪ dirs d |}).

Definition copy (src dst : string) (d : filesystem) : result unit * filesystem :=
  if String.eqb dst "generated_mails/nocopy" then (Raise (OSError dst), d) else (Ok tt, d).

Definition archive (base_name root_dir : string) (d : filesystem)
    : result unit * filesystem :=
  (Ok tt, {| files := <[ base_name +:+ ".zip" := [] ]> (files d); dirs := dirs d |}).

Definition env : Externals := {|
  requests_get := get;
  BeautifulSoup := parse;
  DictReader := read_rows;
  template := string;
  Template := fun template_code => Ok template_code;
  render := render_text;
  makedirs := mkdirs;
  copytree := copy;
  make_archive := archive;
  TEMPLATE_TEMP_FOLDER := "/tmp/template_demo";
|}.





(** An empty disk but for the output folder, and no notice yet. *)
Definition w0 : world :=
  {| disk := {| files := ∅; dirs := {[ "generated_mails" ]} |}; notices := [] |}.

(** The markup [<img src=Qv Q>], Q being the double quote. *)
Definition img_markup (v : string) : string :=
  "<img src=" +:+ String (ascii_of_nat 34) (v +:+ String (ascii_of_nat 34) ">").

(** The disk of [w0] with a picture saved as [s] in the output folder, as
    [download_image] leaves it for an address that ends in [/s], and with a
    sub-directory [assets]. *)
Definition w1 : world :=
  {| disk := {| files := {[ "generated_mails/s" := [x42] ]};
                dirs := {[ "generated_mails"; "generated_mails/assets" ]} |};
     notices := [] |}.

End demo.

(** * Vocabulary of the statements *)

(** [x] is the first element of [l] that satisfies [P]. *)
Definition first_match {A} (P : A -> bool) (l : list A) (x : A) : Prop :=
  exists pre post, l = pre ++ x :: post /\ P x = true /\ Forall (fun y => P y = false) pre.

(** No element of [l] satisfies [P]. *)
Definition no_match {A} (P : A -> bool) (l : list A) : Prop :=
  Forall (fun y => P y = false) l.

(** The world [w] after one more notice. *)
Definition warned (w : world) (n : notice) : world :=
  {| disk := disk w; notices := notices w ++ [n] |}.

(** The status codes [raise_for_status] rejects. *)
Definition error_status (r : Response) : Prop :=
  (400 <= status_code r < 600)%Z.

(** The row a block of the enrichment loop leaves when it does not raise. *)
Definition enriched (url_key title_key img_key lead_key : string) (v : pyval)
    (f : ScrapedFields) (r : row) : row :=
  <[lead_key := PyStr (lead f)]>
    (<[img_key := PyStr (img f)]>
       (<[title_key := PyStr (title f)]> (<[url_key := v]> r))).

(** The path [os.path.join(a, b)] puts in front of a relative [b]. *)
Definition dir_prefix (a : string) : string :=
  if negb (Py.nonempty a) || String.eqb (Py.drop (String.length a - 1) a) "/"
  then a else a +:+ "/".

(** The [Opaque] arm of the image dispatch: neither of the two prefixes. *)
Definition opaque (v : string) : bool :=
  negb (Py.startswith v "http") && negb (Py.startswith v "data:").

(** The MIME type a data URI declares: the text between the scheme and the
    first semicolon of the header, the header being what precedes the first
    comma. *)
Definition declared_mime (data_uri : string) : option string :=
  if Py.startswith data_uri "data:" then
    match Py.partition "," (Py.drop 5 data_uri) with
    | Some (header, _) =>
        match Py.partition ";" header with
        | Some (mime, _) => Some mime
        | None => Some header
        end
    | None => None
    end
  else None.

(** The disk after the file [p] has been written with [data]. *)
Definition with_file (p : string) (data : bytes) (w : world) : world :=
  {| disk := {| files := <[p := data]> (files (disk w)); dirs := dirs (disk w) |};
     notices := notices w |}.

(** [open(p, 'wb')] is refused on the disk [d]. *)
Definition open_refused (d : filesystem) (p : string) : bool :=
  negb (Py.nonempty p) || fs.isdir d p || negb (fs.isdir d (path.dirname p)).

(** A type or subtype of a MIME type as the splitting statements need it:
    free of the four separators. *)
Definition token (s : string) : bool :=
  Py.lacks "," s && Py.lacks ";" s && Py.lacks ":" s && Py.lacks "/" s.

(** The inline form [data:<type>/<subtype>;base64,<payload>]. *)
Definition inline_data (type subtype payload : string) : string :=
  "data:" +:+ type +:+ "/" +:+ subtype +:+ ";base64," +:+ payload.

(** The notices that close the processing of a row: the three warnings of
    the skipped rows and the information that a package was generated.
    [closed_packages] lists the packages they name, in order; [archives]
    lists the archives of the generated ones. *)
Definition closes_row (n : notice) : option string :=
  match n with
  | st_error (msg_render p _) => Some p
  | st_error (msg_copy p _) => Some p
  | st_error (msg_write p _) => Some p
  | st_info (msg_generated p) => Some p
  | _ => None
  end.

Fixpoint closed_packages (log : list notice) : list string :=
  match log with
  | [] => []
  | n :: log' =>
      match closes_row n with
      | Some p => p :: closed_packages log'
      | None => closed_packages log'
      end
  end.

Fixpoint archives (log : list notice) : list string :=
  match log with
  | [] => []
  | st_info (msg_generated p) :: log' => (p +:+ ".zip") :: archives log'
  | _ :: log' => archives log'
  end.

(** The notices of [log] close no row. *)
Definition quiet (log : list notice) : Prop :=
  closed_packages log = [] /\ archives log = [].


(** A computation that shows no notice, whatever its outcome. *)
Definition silent {A} (m : M A) : Prop :=
  forall w, notices (snd (m w)) = notices w.

(** The outcome of the loop on [r :: rest] is the outcome [out] of the loop
    on [rest], with the row [r1] put back in front of the rows. *)
Definition with_row (r1 : row) (out : result (list string * list row) * world)
    : result (list string * list row) * world :=
  (match fst out with
   | Ok done => Ok (fst done, r1 :: snd done)
   | Raise e => Raise e
   end, snd out).

(** A computation that returns normally and shows only notices that close
    no row. *)
Definition runs_quietly {A} (m : M A) : Prop :=
  forall w, exists a w' log,
    m w = (Ok a, w') /\ notices w' = notices w ++ log /\ quiet log.



(** Induction on a page tree, with the hypothesis on every child. *)
Fixpoint node_rect_children (P : node -> Prop)
    (Hs : forall s, P (NavigableString s))
    (Ht : forall name classes attrs kids,
            Forall P kids -> P (Tag name classes attrs kids))
    (n : node) : P n :=
  match n with
  | NavigableString s => Hs s
  | Tag name classes attrs kids =>
      Ht name classes attrs kids
        ((fix children (l : list node) : Forall P l :=
            match l with
            | [] => @List.Forall_nil _ P
            | k :: l' => @List.Forall_cons _ P k l' (node_rect_children P Hs Ht k) (children l')
            end) kids)
  end.

(** ** Vocabulary of the further properties *)

(** The numbers below 256, and a test of a relation on all pairs of them. *)
Definition octets : list N := map N.of_nat (seq 0 256).

Definition holds_on_octets (f : N -> N -> bool) : bool :=
  forallb (fun a => forallb (f a) octets) octets.

(** The extension [embed_image_as_data_uri] reads off a path, in lower case
    and without its dot, and the MIME subtype it announces for it. *)
Definition image_ext (image_path : string) : string :=
  Py.lower (Py.drop 1 (snd (path.splitext image_path))).

Definition image_subtype (image_path : string) : string :=
  if String.eqb (image_ext image_path) "svg" then "svg+xml" else image_ext image_path.

(** A second disk for the examples: a picture with an upper-case extension
    and a drawing next to the output folder of [demo.w0]. *)
Definition gallery : world :=
  {| disk := {| files := {[ "in/logo.PNG" := [x41; x42; x43; x44];
                            "in/plan.SVG" := [x3c; x3e] ]};
                dirs := {[ "in"; "generated_mails" ]} |};
     notices := [] |}.

(** An address without its query string: what precedes the first [?]. *)
Definition url_path (image_url : string) : string :=
  match Py.split "?" image_url with
  | h :: _ => h
  | [] => image_url
  end.

(** The path [download_image] saves an address under. *)
Definition download_path (image_url dest_folder : string) : string :=
  path.join dest_folder (path.basename (url_path image_url)).

(** The image columns [process_csv] goes through: none when the argument
    is [None]. *)
Definition image_columns (dynamic_image_columns : option (list string)) : list string :=
  match dynamic_image_columns with
  | Some cols => cols
  | None => []
  end.

(** The row [r'] has the keys of [r], and every cell of [r'] is the cell of
    [r] or, in one of the columns [cols], a file name without a slash. *)
Definition localized (cols : list string) (r r' : row) : Prop :=
  dom r' = dom r
  /\ forall k, r' !! k = r !! k
               \/ (k ∈ cols /\ exists b, r' !! k = Some (PyStr b)
                                         /\ Py.lacks "/" b = true).

(** The six columns the enrichment writes. *)
Definition derived_keys : list string :=
  ["title1"; "img1"; "lead1"; "title2"; "img2"; "lead2"].

(** The row [r'] is the row [r] with the six derived columns written: the
    other cells are those of [r], the derived cells hold strings, and the
    two leads have at most 150 characters. *)
Definition enriched_from (r r' : row) : Prop :=
  (forall k, k ∉ derived_keys -> r' !! k = r !! k)
  /\ (forall k, k ∈ derived_keys -> exists s, r' !! k = Some (PyStr s))
  /\ (forall s, r' !! "lead1" = Some (PyStr s) -> String.length s <= 150)
  /\ (forall s, r' !! "lead2" = Some (PyStr s) -> String.length s <= 150).

(** A text in which every match of the pattern of [inline_base_images],
    found from left to right, has a value [src] that starts with [data:] or
    for which [os.path.join(base_folder, src)] does not exist on the disk
    [d]; the join of an absolute [src] is [src] itself. *)
Inductive untouched (base_folder : string) (d : filesystem) : string -> Prop :=
| untouched_nil : untouched base_folder d EmptyString
| untouched_char (c : ascii) (s : string) :
    match_src (String c s) = None ->
    untouched base_folder d s ->
    untouched base_folder d (String c s)
| untouched_match (group0 src rest : string) :
    match_src (group0 +:+ rest) = Some (group0, src) ->
    Py.startswith src "data:" = true
    \/ fs.exists_ d (path.join base_folder src) = false ->
    untouched base_folder d rest ->
    untouched base_folder d (group0 +:+ rest).

(** The text [src=Qv Q], Q being the double quote. *)
Definition src_attribute (v : string) : string :=
  "src=" +:+ String (ascii_of_nat 34) (v +:+ String (ascii_of_nat 34) EmptyString).

(** * Properties *)

(** ** Strings and paths *)

Lemma sapp_nil_l (s : string) : EmptyString +:+ s = s.
Proof. reflexivity. Qed.

Lemma sapp_cons (x : ascii) (a b : string) : String x a +:+ b = String x (a +:+ b).
Proof. reflexivity. Qed.

Lemma sapp_nil_r (s : string) : s +:+ EmptyString = s.
Proof. induction s as [|a s IH]; [done | by rewrite sapp_cons, IH]. Qed.

Lemma sapp_assoc (a b c : string) : (a +:+ b) +:+ c = a +:+ (b +:+ c).
Proof. induction a as [|x a IH]; [done | by rewrite !sapp_cons, IH]. Qed.

Lemma slength_app (a b : string) :
  String.length (a +:+ b) = String.length a + String.length b.
Proof. induction a as [|x a IH]; [done | rewrite sapp_cons; simpl; by rewrite IH]. Qed.

Lemma take_length_str (n : nat) (s : string) :
  String.length (Py.take n s) = n `min` String.length s.
Proof.
  revert s; induction n as [|n IH]; intros [|a s]; simpl; try done.
  by rewrite IH.
Qed.

Lemma take_drop_str (n : nat) (s : string) : Py.take n s +:+ Py.drop n s = s.
Proof.
  revert s; induction n as [|n IH]; intros [|a s]; simpl; try done.
  by rewrite sapp_cons, IH.
Qed.

Lemma take_app_length_str (a b : string) : Py.take (String.length a) (a +:+ b) = a.
Proof.
  induction a as [|x a IH]; [by destruct b |].
  rewrite sapp_cons; simpl. by rewrite IH.
Qed.

Lemma drop_app_length_str (a b : string) : Py.drop (String.length a) (a +:+ b) = b.
Proof.
  induction a as [|x a IH]; [by destruct b |].
  rewrite sapp_cons; simpl. done.
Qed.

Lemma all_app_str (p : ascii -> bool) (a b : string) :
  Py.all p (a +:+ b) = Py.all p a && Py.all p b.
Proof.
  induction a as [|x a IH]; [done |].
  rewrite sapp_cons; simpl. rewrite IH. by destruct (p x).
Qed.

Lemma lacks_app (c : ascii) (a b : string) :
  Py.lacks c (a +:+ b) = Py.lacks c a && Py.lacks c b.
Proof. apply all_app_str. Qed.

Lemma lacks_cons (c x : ascii) (s : string) :
  Py.lacks c (String x s) = negb (Ascii.eqb x c) && Py.lacks c s.
Proof. done. Qed.

Lemma partition_app (c : ascii) (a b : string) :
  Py.lacks c a = true -> Py.partition c (a +:+ String c b) = Some (a, b).
Proof.
  induction a as [|x a IH].
  - intros _. rewrite sapp_nil_l; simpl. by rewrite Ascii.eqb_refl.
  - rewrite lacks_cons, sapp_cons. intros [Hx Ha]%andb_prop.
    apply negb_true_iff in Hx. simpl. by rewrite Hx, (IH Ha).
Qed.

Lemma split_lacks (c : ascii) (a : string) :
  Py.lacks c a = true -> Py.split c a = [a].
Proof.
  induction a as [|x a IH]; [done |].
  rewrite lacks_cons. intros [Hx Ha]%andb_prop.
  apply negb_true_iff in Hx. simpl. by rewrite Hx, (IH Ha).
Qed.

Lemma split_app (c : ascii) (a b : string) :
  Py.lacks c a = true -> Py.split c (a +:+ String c b) = a :: Py.split c b.
Proof.
  induction a as [|x a IH].
  - intros _. rewrite sapp_nil_l; simpl. by rewrite Ascii.eqb_refl.
  - rewrite lacks_cons, sapp_cons. intros [Hx Ha]%andb_prop.
    apply negb_true_iff in Hx. simpl. by rewrite Hx, (IH Ha).
Qed.

Lemma rfind_lacks (c : ascii) (s : string) :
  Py.lacks c s = true -> Py.rfind c s = None.
Proof.
  induction s as [|x s IH]; [done |].
  rewrite lacks_cons. intros [Hx Hs]%andb_prop.
  apply negb_true_iff in Hx. simpl. by rewrite (IH Hs), Hx.
Qed.

Lemma rfind_app_sep (c : ascii) (a b : string) :
  Py.lacks c b = true -> Py.rfind c (a +:+ String c b) = Some (String.length a).
Proof.
  intros Hb. induction a as [|x a IH].
  - rewrite sapp_nil_l; simpl. by rewrite (rfind_lacks _ _ Hb), Ascii.eqb_refl.
  - rewrite sapp_cons; simpl. by rewrite IH.
Qed.

Lemma rfind_app_lacks (c : ascii) (a b : string) :
  Py.lacks c b = true -> Py.rfind c (a +:+ b) = Py.rfind c a.
Proof.
  intros Hb. induction a as [|x a IH].
  - rewrite sapp_nil_l. simpl. by apply rfind_lacks.
  - rewrite sapp_cons; simpl. by rewrite IH.
Qed.

Lemma prefix_app (p s : string) : String.prefix p (p +:+ s) = true.
Proof.
  induction p as [|x p IH]; [by destruct s |].
  rewrite sapp_cons; simpl.
  destruct (ascii_dec x x); [done | congruence].
Qed.

Lemma nonempty_true (s : string) : Py.nonempty s = true <-> s <> EmptyString.
Proof. unfold Py.nonempty. rewrite negb_true_iff. apply String.eqb_neq. Qed.

Lemma nonempty_false (s : string) : Py.nonempty s = false <-> s = EmptyString.
Proof. unfold Py.nonempty. rewrite negb_false_iff. apply String.eqb_eq. Qed.

(** ** The package identifier *)





(** ** First matches in document order *)


Lemma find_first_match {A} (P : A -> bool) (l : list A) (x : A) :
  first_match P l x -> List.find P l = Some x.
Proof.
  intros (pre & post & -> & Hx & Hpre).
  induction Hpre as [|y pre Hy _ IH]; simpl.
  - by rewrite Hx.
  - by rewrite Hy.
Qed.

Lemma find_no_match {A} (P : A -> bool) (l : list A) :
  no_match P l -> List.find P l = None.
Proof.
  induction 1 as [|y l Hy _ IH]; simpl; [done |]. by rewrite Hy.
Qed.

Lemma find_some_first_match {A} (P : A -> bool) (l : list A) (x : A) :
  List.find P l = Some x -> first_match P l x.
Proof.
  induction l as [|y l IH]; simpl; [done |].
  destruct (P y) eqn:Hy.
  - intros [= ->]. by exists [], l.
  - intros (pre & post & -> & Hx & Hpre)%IH.
    exists (y :: pre), post. split; [done |]. split; [done |]. by constructor.
Qed.

Lemma find_none_no_match {A} (P : A -> bool) (l : list A) :
  List.find P l = None -> no_match P l.
Proof.
  induction l as [|y l IH]; simpl; [by constructor |].
  destruct (P y) eqn:Hy; [done |]. intros Hn. constructor; [done | by apply IH].
Qed.

(** ** The page tree *)

(** The children of the pairs of [bs4.edges] are the descendants, in the
    same order: the pairs are listed in the document order of the child. *)
Lemma edges_descendants (n : node) : map snd (bs4.edges n) = bs4.descendants n.
Proof.
  induction n as [s | name classes attrs kids IH] using node_rect_children; [done |].
  change (bs4.edges (Tag name classes attrs kids))
    with (flat_map (fun k => (Tag name classes attrs kids, k) :: bs4.edges k) kids).
  change (bs4.descendants (Tag name classes attrs kids))
    with (flat_map (fun k => k :: bs4.descendants k) kids).
  generalize (Tag name classes attrs kids) as p. intros p.
  induction IH as [|k kids Hk _ IHkids]; [done |].
  simpl. rewrite map_app, IHkids, Hk. done.
Qed.

(** In every pair of [bs4.edges] the second node is one of the children
    of the first. *)
Lemma edges_direct_child (n p c : node) :
  In (p, c) (bs4.edges n) ->
  exists name classes attrs kids, p = Tag name classes attrs kids /\ In c kids.
Proof.
  revert p c.
  induction n as [s | name classes attrs kids IH] using node_rect_children;
    intros p c; [done |].
  change (bs4.edges (Tag name classes attrs kids))
    with (flat_map (fun k => (Tag name classes attrs kids, k) :: bs4.edges k) kids).
  rewrite in_flat_map. intros (k & Hk & [Heq | Hin]).
  - injection Heq as <- <-. by exists name, classes, attrs, kids.
  - rewrite Forall_forall in IH. apply (IH k); [| done].
    by apply list_elem_of_In.
Qed.

(** ** [scrap_page] *)

Section scraping.

Context `{Externals}.


Lemma scrap_page_ok (url : string) (soup : node) (w : world) :
  fetch_soup url = Ok soup -> scrap_page url w = (Ok (extract_fields soup), w).
Proof.
  intros Hf. unfold scrap_page, try_except, bind, lift, ret. by rewrite Hf.
Qed.

Lemma scrap_page_failed (url : string) (e : exn) (w : world) :
  fetch_soup url = Raise e ->
  scrap_page url w = (Ok empty_fields, warned w (st_error (msg_scrape url e))).
Proof.
  intros Hf. unfold scrap_page, try_except, bind, lift, ret, notify. by rewrite Hf.
Qed.

Lemma scrap_page_total (url : string) (w : world) :
  exists f w', scrap_page url w = (Ok f, w').
Proof.
  destruct (fetch_soup url) as [soup|e] eqn:Hf.
  - eexists _, _. by apply scrap_page_ok.
  - eexists _, _. by apply scrap_page_failed.
Qed.


Lemma raise_for_status_error (r : Response) :
  error_status r -> raise_for_status r = Raise (HTTPError (status_code r)).
Proof.
  unfold error_status, raise_for_status. intros [H1 H2].
  apply Z.leb_le in H1. apply Z.ltb_lt in H2. by rewrite H1, H2.
Qed.

Lemma raise_for_status_pass (r : Response) :
  ~ error_status r -> raise_for_status r = Ok tt.
Proof.
  unfold error_status, raise_for_status. intros Hn.
  destruct (400 <=? status_code r)%Z eqn:H1; [| done].
  destruct (status_code r <? 600)%Z eqn:H2; [| done].
  apply Z.leb_le in H1. apply Z.ltb_lt in H2. lia.
Qed.

Lemma fetch_soup_parsed (url : string) (r : Response) (nodes : list node) :
  requests_get url = Ok r -> ~ error_status r -> BeautifulSoup (content r) = Ok nodes ->
  fetch_soup url = Ok (document nodes).
Proof.
  intros Hg Hs Hp. unfold fetch_soup.
  by rewrite Hg, (raise_for_status_pass _ Hs), Hp.
Qed.

(** C2 (as amended).  [scrap_page] never raises; when the request fails
    (connection error, timeout), when the status is a 4xx or 5xx one, or
    when the parser rejects the page, it returns the all-empty triple and
    shows one error notice. *)
Theorem scrap_page_recovers (url : string) (w : world) :
  (exists f w', scrap_page url w = (Ok f, w'))
  /\ (forall e,
        requests_get url = Raise e
        \/ (exists r, requests_get url = Ok r /\ error_status r
                      /\ e = HTTPError (status_code r))
        \/ (exists r, requests_get url = Ok r /\ ~ error_status r
                      /\ BeautifulSoup (content r) = Raise e) ->
        scrap_page url w
        = (Ok empty_fields, warned w (st_error (msg_scrape url e)))).
Proof.
  split; [apply scrap_page_total |].
  intros e Hfail. apply scrap_page_failed. unfold fetch_soup.
  destruct Hfail as [Hg | [(r & Hg & Hs & ->) | (r & Hg & Hs & Hp)]].
  - by rewrite Hg.
  - by rewrite Hg, (raise_for_status_error _ Hs).
  - by rewrite Hg, (raise_for_status_pass _ Hs), Hp.
Qed.

(** C5.  Whatever the URL and the page, [scrap_page] returns, and the lead
    it returns has at most 150 characters; on a fetched page it is the
    text cut after its first 150 characters, wherever that falls. *)
Theorem scrap_page_lead_truncated (url : string) (w : world) :
  exists f w',
    scrap_page url w = (Ok f, w')
    /\ String.length (lead f) <= 150
    /\ (forall soup, fetch_soup url = Ok soup ->
          String.length (lead f) = 150 `min` String.length (lead_text soup)
          /\ lead_text soup = lead f +:+ Py.drop 150 (lead_text soup)).
Proof.
  destruct (fetch_soup url) as [soup|e] eqn:Hf.
  - exists (extract_fields soup), w. split; [by apply scrap_page_ok |].
    change (lead (extract_fields soup)) with (Py.take 150 (lead_text soup)).
    rewrite take_length_str. split; [lia |].
    intros ? [= <-]. split; [done |]. by rewrite take_drop_str.
  - eexists _, _. split; [by apply scrap_page_failed |].
    simpl. split; [lia | done].
Qed.

End scraping.

(** C2, counterexample.  The status 300 is not a 2xx status, and the page
    that comes with it is scraped like any other: the fields are not empty
    and no notice is shown. *)
Lemma scrap_page_status_300_scraped :
  @requests_get demo.env "https://example.com/choices"
  = Ok {| status_code := 300; content := [x01] |}
  /\ @scrap_page demo.env "https://example.com/choices" demo.w0
     = (Ok {| title := "HelloWorld"; img := "cover.png"; lead := "one two" |}, demo.w0).
Proof. split; reflexivity. Qed.

(** C2, an instance: the status 404 gives the empty triple and a notice. *)
Lemma scrap_page_recovers_witness :
  @scrap_page demo.env "https://example.com/missing" demo.w0
  = (Ok empty_fields,
     warned demo.w0 (st_error (msg_scrape "https://example.com/missing" (HTTPError 404)))).
Proof.
  apply (@scrap_page_recovers demo.env "https://example.com/missing" demo.w0).
  right; left. eexists. split; [reflexivity |].
  split; [unfold error_status; simpl; lia | reflexivity].
Defined.

(** ** [process_scrape_csv] *)

Section enrichment.

Context `{Externals}.

Lemma scrape_block_absent (url_key title_key img_key lead_key : string) (r : row)
    (w : world) :
  r !! url_key = None ->
  scrape_block url_key title_key img_key lead_key r w = (Raise (KeyError url_key), w).
Proof.
  intros Hr. unfold scrape_block, bind, lift, row_get. by rewrite Hr.
Qed.

Lemma scrape_block_scraped (url_key title_key img_key lead_key url : string) (r : row)
    (w w' : world) (f : ScrapedFields) :
  r !! url_key = Some (PyStr url) -> url <> EmptyString ->
  scrap_page url w = (Ok f, w') ->
  scrape_block url_key title_key img_key lead_key r w
  = (Ok (enriched url_key title_key img_key lead_key (PyStr url) f r), w').
Proof.
  intros Hr Hu Hs. unfold scrape_block, bind, lift, row_get, ret.
  apply nonempty_true in Hu. by rewrite Hr, Hu, Hs.
Qed.

Lemma scrape_block_skipped (url_key title_key img_key lead_key : string) (r : row)
    (w : world) (v : pyval) :
  r !! url_key = Some v -> truthy v = false ->
  scrape_block url_key title_key img_key lead_key r w
  = (Ok (enriched url_key title_key img_key lead_key v empty_fields r), w).
Proof.
  intros Hr Hv. unfold scrape_block, bind, lift, row_get, ret.
  rewrite Hr. destruct v as [|u]; simpl in *; by rewrite ?Hv, ?Hr.
Qed.

Lemma scrape_block_present (url_key title_key img_key lead_key : string) (r : row)
    (w : world) (v : pyval) :
  r !! url_key = Some v ->
  exists f w', scrape_block url_key title_key img_key lead_key r w
               = (Ok (enriched url_key title_key img_key lead_key v f r), w').
Proof.
  intros Hr. destruct (truthy v) eqn:Hv.
  - destruct v as [|u]; [done |]. simpl in Hv. apply nonempty_true in Hv.
    destruct (scrap_page_total u w) as (f & w' & Hs).
    exists f, w'. by eapply scrape_block_scraped.
  - exists empty_fields, w. by apply scrape_block_skipped.
Qed.

(** When both URL columns are there the body of the loop does not raise
    and leaves the six derived keys in the row. *)
Lemma enrich_row_keys (r : row) (w : world) (v1 v2 : pyval) :
  r !! "url1" = Some v1 -> r !! "url2" = Some v2 ->
  exists r' w', enrich_row r w = (Ok r', w')
    /\ Forall (fun k => is_Some (r' !! k))
         ["title1"; "img1"; "lead1"; "title2"; "img2"; "lead2"].
Proof.
  intros H1 H2.
  destruct (scrape_block_present "url1" "title1" "img1" "lead1" r w v1 H1)
    as (f1 & w1 & E1).
  set (r1 := enriched "url1" "title1" "img1" "lead1" v1 f1 r) in *.
  assert (r1 !! "url2" = Some v2) as H2'.
  { unfold r1, enriched. by rewrite !lookup_insert_ne. }
  destruct (scrape_block_present "url2" "title2" "img2" "lead2" r1 w1 v2 H2')
    as (f2 & w2 & E2).
  eexists _, w2. split.
  - unfold enrich_row, bind. by rewrite E1, E2.
  - unfold r1, enriched. repeat constructor; simplify_map_eq; eauto.
Qed.

(** A first row without the [url1] column makes the whole enrichment raise. *)
Lemma process_scrape_csv_missing_url1 (file_bytes : bytes) (r : row) (rest : list row)
    (w : world) :
  DictReader file_bytes = Ok (r :: rest) -> r !! "url1" = None ->
  process_scrape_csv file_bytes w = (Raise (KeyError "url1"), w).
Proof.
  intros Hd Hr. unfold process_scrape_csv, bind, lift. rewrite Hd.
  simpl. unfold bind, enrich_row, bind.
  by rewrite (scrape_block_absent _ _ _ _ _ _ Hr).
Qed.

End enrichment.

(** C1, the failing run: a table without the [url1] column makes
    [process_scrape_csv] raise [KeyError] on its first row, in the [else]
    branch that re-assigns [row[url1]]. *)
Theorem process_scrape_csv_missing_column_raises :
  @DictReader demo.env [x01] = Ok [ {[ "ID" := PyStr "42" ]} ]
  /\ @process_scrape_csv demo.env [x01] demo.w0 = (Raise (KeyError "url1"), demo.w0).
Proof. split; reflexivity. Qed.

(** ** The extraction rules *)

Section extraction.

Context `{Externals}.

Lemma title_first_h1 (soup h1 : node) :
  first_match (bs4.is_tag "h1") (bs4.descendants soup) h1 ->
  title (extract_fields soup) = bs4.get_text EmptyString h1.
Proof.
  intros Hm. unfold extract_fields, bs4.find; cbn [title].
  by rewrite (find_first_match _ _ _ Hm).
Qed.

Lemma title_no_h1 (soup : node) :
  no_match (bs4.is_tag "h1") (bs4.descendants soup) ->
  title (extract_fields soup) = EmptyString.
Proof.
  intros Hm. unfold extract_fields, bs4.find; cbn [title].
  by rewrite (find_no_match _ _ Hm).
Qed.

Lemma img_first_wrapped (soup p c : node) :
  first_match (bs4.matches_child "div" "entry-image" "img") (bs4.edges soup) (p, c) ->
  img (extract_fields soup) = bs4.get c "src" EmptyString.
Proof.
  intros Hm. unfold extract_fields, bs4.select_one_child; cbn [img].
  by rewrite (find_first_match _ _ _ Hm).
Qed.

Lemma img_none_wrapped (soup : node) :
  no_match (bs4.matches_child "div" "entry-image" "img") (bs4.edges soup) ->
  img (extract_fields soup) = EmptyString.
Proof.
  intros Hm. unfold extract_fields, bs4.select_one_child; cbn [img].
  by rewrite (find_no_match _ _ Hm).
Qed.

Lemma lead_text_entry_lead (soup t : node) :
  first_match (bs4.matches_class "div" "entry-lead") (bs4.descendants soup) t ->
  lead_text soup = bs4.get_text EmptyString t.
Proof.
  intros Hm. unfold lead_text, bs4.select_one_class.
  by rewrite (find_first_match _ _ _ Hm).
Qed.

Lemma lead_text_article (soup t : node) :
  no_match (bs4.matches_class "div" "entry-lead") (bs4.descendants soup) ->
  first_match (bs4.matches_class "div" "article__content") (bs4.descendants soup) t ->
  lead_text soup = bs4.get_text " " t.
Proof.
  intros Hn Hm. unfold lead_text, bs4.select_one_class.
  by rewrite (find_no_match _ _ Hn), (find_first_match _ _ _ Hm).
Qed.

Lemma lead_text_neither (soup : node) :
  no_match (bs4.matches_class "div" "entry-lead") (bs4.descendants soup) ->
  no_match (bs4.matches_class "div" "article__content") (bs4.descendants soup) ->
  lead_text soup = EmptyString.
Proof.
  intros Hn Hm. unfold lead_text, bs4.select_one_class.
  by rewrite (find_no_match _ _ Hn), (find_no_match _ _ Hm).
Qed.

(** C9 (as amended).  On a fetched page [scrap_page] returns, without a
    notice: as title the text of the first [h1] in document order, empty
    when there is none; as image the [src] attribute (empty when it has
    none) of the first [img] that is a direct child of a [div] of class
    [entry-image], empty when there is no such image; as lead the first 150
    characters of the text of the first [div] of class [entry-lead], or,
    when there is none, of the space-joined text of the first [div] of
    class [article__content], or nothing.  On a page with none of these
    elements the enrichment of a row that carries both URL columns leaves
    [title1], [img1] and [lead1] empty. *)
Theorem scrap_page_fields (url : string) (w : world) (r : Response) (nodes : list node) :
  requests_get url = Ok r -> ~ error_status r -> BeautifulSoup (content r) = Ok nodes ->
  let soup := document nodes in
  let elements := bs4.descendants soup in
  let is_lead := bs4.matches_class "div" "entry-lead" in
  let is_article := bs4.matches_class "div" "article__content" in
  let is_image := bs4.matches_child "div" "entry-image" "img" in
  exists f,
    scrap_page url w = (Ok f, w)
    /\ (forall h1, first_match (bs4.is_tag "h1") elements h1 ->
                   title f = bs4.get_text EmptyString h1)
    /\ (no_match (bs4.is_tag "h1") elements -> title f = EmptyString)
    /\ (forall p c, first_match is_image (bs4.edges soup) (p, c) ->
                    img f = bs4.get c "src" EmptyString)
    /\ (no_match is_image (bs4.edges soup) -> img f = EmptyString)
    /\ (forall t, first_match is_lead elements t ->
                  lead f = Py.take 150 (bs4.get_text EmptyString t))
    /\ (forall t, no_match is_lead elements -> first_match is_article elements t ->
                  lead f = Py.take 150 (bs4.get_text " " t))
    /\ (no_match is_lead elements -> no_match is_article elements ->
        lead f = EmptyString)
    /\ (no_match (bs4.is_tag "h1") elements -> no_match is_image (bs4.edges soup) ->
        no_match is_lead elements -> no_match is_article elements ->
        forall (rw : row) (v2 : pyval),
          rw !! "url1" = Some (PyStr url) -> url <> EmptyString ->
          rw !! "url2" = Some v2 ->
          exists rw' w', enrich_row rw w = (Ok rw', w')
            /\ rw' !! "title1" = Some (PyStr EmptyString)
            /\ rw' !! "img1" = Some (PyStr EmptyString)
            /\ rw' !! "lead1" = Some (PyStr EmptyString)).
Proof.
  intros Hg Hs Hp soup elements is_lead is_article is_image.
  subst elements is_lead is_article is_image soup.
  set (soup := document nodes).
  pose proof (fetch_soup_parsed _ _ _ Hg Hs Hp) as Hf. fold soup in Hf.
  exists (extract_fields soup). split; [by apply scrap_page_ok |].
  split; [intros; by apply title_first_h1 |].
  split; [apply title_no_h1 |].
  split; [intros p c; apply img_first_wrapped |].
  split; [apply img_none_wrapped |].
  assert (lead (extract_fields soup) = Py.take 150 (lead_text soup)) as -> by done.
  split; [intros t Ht; by rewrite (lead_text_entry_lead _ _ Ht) |].
  split; [intros t Hn Ht; by rewrite (lead_text_article _ _ Hn Ht) |].
  split; [intros Hn Ha; by rewrite (lead_text_neither _ Hn Ha) |].
  intros Hh Hi Hl Ha rw v2 H1 Hu H2.
  pose proof (scrape_block_scraped "url1" "title1" "img1" "lead1" url rw w w _ H1 Hu
                (scrap_page_ok _ _ w Hf)) as E1.
  set (r1 := enriched _ _ _ _ _ _ rw) in E1.
  assert (r1 !! "url2" = Some v2) as H2'.
  { unfold r1, enriched. by rewrite !lookup_insert_ne. }
  destruct (scrape_block_present "url2" "title2" "img2" "lead2" r1 w v2 H2')
    as (f2 & w2 & E2).
  eexists _, w2. split; [unfold enrich_row, bind; by rewrite E1, E2 |].
  unfold r1, enriched.
  rewrite (title_no_h1 _ Hh), (img_none_wrapped _ Hi).
  assert (lead (extract_fields soup) = Py.take 150 (lead_text soup)) as -> by done.
  rewrite (lead_text_neither _ Hl Ha).
  repeat split; by simplify_map_eq.
Qed.

End extraction.

(** C9, counterexample.  The lead container of this page holds 151
    characters; the lead returned holds the first 150 of them, so it is not
    the text of the container. *)
Lemma scrap_page_lead_is_cut :
  bs4.select_one_class "div" "entry-lead" (document demo.long_page)
  = Some (Tag "div" ["entry-lead"] ∅ [NavigableString (demo.letters 151)])
  /\ bs4.get_text EmptyString
       (Tag "div" ["entry-lead"] ∅ [NavigableString (demo.letters 151)])
     = demo.letters 151
  /\ @scrap_page demo.env "https://example.com/long" demo.w0
     = (Ok {| title := EmptyString; img := EmptyString; lead := demo.letters 150 |},
        demo.w0)
  /\ demo.letters 150 <> demo.letters 151.
Proof. repeat split; try reflexivity. discriminate. Qed.

(** C9, two instances: the article page, whose three fields are found, and
    the plain page, which leaves the three derived columns of a row empty. *)
Lemma scrap_page_fields_witness :
  (exists f, @scrap_page demo.env "https://example.com/article" demo.w0 = (Ok f, demo.w0)
             /\ title f = "HelloWorld" /\ img f = "cover.png" /\ lead f = "one two")
  /\ (exists rw' w',
        @enrich_row demo.env
          {[ "ID" := PyStr "42"; "url1" := PyStr "https://example.com/a";
             "url2" := PyNone ]} demo.w0 = (Ok rw', w')
        /\ rw' !! "title1" = Some (PyStr EmptyString)
        /\ rw' !! "img1" = Some (PyStr EmptyString)
        /\ rw' !! "lead1" = Some (PyStr EmptyString)).
Proof.
  split.
  - destruct (@scrap_page_fields demo.env "https://example.com/article" demo.w0
                {| status_code := 200; content := [x01] |} demo.article_page)
      as (f & Hrun & Ht & _ & Hi & _ & _ & Hl & _).
    + reflexivity.
    + unfold error_status; simpl; lia.
    + reflexivity.
    + exists f. split; [exact Hrun |]. split; [| split].
      * etrans; [apply Ht; apply find_some_first_match; reflexivity | reflexivity].
      * etrans; [eapply Hi; apply find_some_first_match; reflexivity | reflexivity].
      * etrans; [apply Hl; [apply find_none_no_match | apply find_some_first_match];
                 reflexivity | reflexivity].
  - destruct (@scrap_page_fields demo.env "https://example.com/a" demo.w0
                {| status_code := 200; content := [x00] |} demo.plain_page)
      as (f & _ & _ & _ & _ & _ & _ & _ & _ & Hrow).
    + reflexivity.
    + unfold error_status; simpl; lia.
    + reflexivity.
    + apply (Hrow ltac:(apply find_none_no_match; reflexivity)
                  ltac:(apply find_none_no_match; reflexivity)
                  ltac:(apply find_none_no_match; reflexivity)
                  ltac:(apply find_none_no_match; reflexivity) _ PyNone).
      * reflexivity.
      * discriminate.
      * reflexivity.
Defined.

(** ** Paths *)

Lemma join_relative (a b : string) :
  Py.startswith b "/" = false -> path.join a b = dir_prefix a +:+ b.
Proof.
  intros Hb. unfold path.join, dir_prefix. rewrite Hb.
  destruct (negb (Py.nonempty a) || _); [done |]. by rewrite sapp_assoc.
Qed.

Lemma lacks_not_startswith (c : ascii) (s : string) :
  Py.lacks c s = true -> Py.startswith s (String c EmptyString) = false.
Proof.
  destruct s as [|x s]; [done |]. rewrite lacks_cons. intros [Hx _]%andb_prop.
  apply negb_true_iff, Ascii.eqb_neq in Hx. unfold Py.startswith; simpl.
  destruct (ascii_dec c x); [congruence | done].
Qed.

Lemma drop_last_char (a : string) (c : ascii) :
  Py.drop (String.length a - 1) a = String c EmptyString ->
  exists d, a = d +:+ String c EmptyString.
Proof.
  intros Hd. exists (Py.take (String.length a - 1) a).
  rewrite <- Hd. by rewrite take_drop_str.
Qed.

Lemma dir_prefix_cases (a : string) :
  (a = EmptyString /\ dir_prefix a = EmptyString)
  \/ exists d, dir_prefix a = d +:+ "/".
Proof.
  unfold dir_prefix. destruct (Py.nonempty a) eqn:Ha; simpl.
  - right. destruct (String.eqb_spec (Py.drop (String.length a - 1) a) "/") as [Hd|_].
    + by apply drop_last_char.
    + by exists a.
  - left. by apply nonempty_false in Ha as ->.
Qed.

Lemma basename_join (a f : string) :
  Py.lacks "/" f = true -> path.basename (path.join a f) = f.
Proof.
  intros Hf. rewrite join_relative by by apply lacks_not_startswith.
  unfold path.basename, path.sep.
  destruct (dir_prefix_cases a) as [[_ ->] | [d ->]].
  - rewrite sapp_nil_l. by rewrite rfind_lacks.
  - rewrite sapp_assoc. change ("/" +:+ f) with (String "/" f).
    rewrite rfind_app_sep by done.
    change (S (String.length d)) with (String.length (String "/" EmptyString) + String.length d).
    replace (String.length (String "/" EmptyString) + String.length d)
      with (String.length (d +:+ "/")) by (rewrite slength_app; simpl; lia).
    change (String "/" f) with ("/" +:+ f). rewrite <- sapp_assoc.
    apply drop_app_length_str.
Qed.

Lemma rstrip_char_idem (c : ascii) (s : string) :
  Py.rstrip_char c (Py.rstrip_char c s) = Py.rstrip_char c s.
Proof.
  induction s as [|a s IH]; [done |]. simpl.
  destruct (Py.rstrip_char c s) as [|b r] eqn:Hr.
  - destruct (Ascii.eqb a c) eqn:Hac; [done |]. simpl. by rewrite Hac.
  - simpl in *. by rewrite IH.
Qed.

Lemma rstrip_char_app_sep (c : ascii) (s : string) :
  Py.rstrip_char c (s +:+ String c EmptyString) = Py.rstrip_char c s.
Proof.
  induction s as [|a s IH].
  - rewrite sapp_nil_l. simpl. by rewrite Ascii.eqb_refl.
  - rewrite sapp_cons. simpl. by rewrite IH.
Qed.

Lemma isdir_rstrip (d : filesystem) (a : string) :
  fs.isdir d a = true -> Py.all (Ascii.eqb path.sep) a = false ->
  fs.isdir d (Py.rstrip_char path.sep a) = true.
Proof.
  unfold fs.isdir. intros Hd Hall. rewrite Hall, andb_false_r, orb_false_r in Hd.
  rewrite rstrip_char_idem.
  apply orb_prop in Hd as [Ha | Hd]; [| by rewrite Hd, orb_true_r].
  apply String.eqb_eq in Ha as ->. done.
Qed.

(** The directory of a file joined to an existing directory exists. *)
Lemma isdir_dirname_join (d : filesystem) (a f : string) :
  Py.lacks "/" f = true -> fs.isdir d a = true ->
  fs.isdir d (path.dirname (path.join a f)) = true.
Proof.
  intros Hf Ha. rewrite join_relative by by apply lacks_not_startswith.
  unfold path.dirname, path.sep.
  destruct (dir_prefix_cases a) as [[_ ->] | [x Hx]].
  - rewrite sapp_nil_l. by rewrite rfind_lacks.
  - rewrite Hx, sapp_assoc. change ("/" +:+ f) with (String "/" f).
    rewrite rfind_app_sep by done.
    replace (S (String.length x)) with (String.length (x +:+ "/"))
      by (rewrite slength_app; simpl; lia).
    change (String "/" f) with ("/" +:+ f). rewrite <- sapp_assoc, take_app_length_str.
    destruct (Py.all (Ascii.eqb "/") (x +:+ "/")) eqn:Hall.
    + unfold fs.isdir, path.sep. rewrite Hall.
      assert (Py.nonempty (x +:+ "/") = true) as ->; [| by rewrite orb_true_r].
      apply nonempty_true. by destruct x.
    + rewrite <- Hx. unfold dir_prefix in *.
      destruct (negb (Py.nonempty a) || _) eqn:Hc.
      * apply isdir_rstrip; [done |]. by rewrite Hx.
      * change (a +:+ "/") with (a +:+ String "/" EmptyString).
        rewrite (rstrip_char_app_sep "/"). apply isdir_rstrip; [done |].
        rewrite <- Hx in Hall. rewrite all_app_str in Hall.
        simpl in Hall. by rewrite !andb_true_r in Hall.
Qed.

(** ** Data URIs *)

Lemma token_lacks (s : string) :
  token s = true ->
  Py.lacks "," s = true /\ Py.lacks ";" s = true /\ Py.lacks ":" s = true
  /\ Py.lacks "/" s = true.
Proof.
  unfold token. intros [[[H1 H2]%andb_prop H3]%andb_prop H4]%andb_prop. done.
Qed.

Lemma data_uri_parts_inline (type subtype payload : string) :
  token type = true -> token subtype = true ->
  data_uri_parts (inline_data type subtype payload) = Ok (subtype, payload).
Proof.
  intros (Tc & Ts & Tk & Tl)%token_lacks (Sc & Ss & Sk & Sl)%token_lacks.
  unfold data_uri_parts, inline_data, Py.split1.
  replace ("data:" +:+ type +:+ "/" +:+ subtype +:+ ";base64," +:+ payload)
    with (("data:" +:+ type +:+ "/" +:+ subtype +:+ ";base64") +:+ String "," payload)
    by (by rewrite !sapp_assoc).
  rewrite partition_app
    by (rewrite !lacks_app, Tc, Sc; reflexivity).
  cbn [unpack2 and_then fst snd].
  replace ("data:" +:+ type +:+ "/" +:+ subtype +:+ ";base64")
    with (("data:" +:+ type +:+ "/" +:+ subtype) +:+ String ";" "base64")
    by (by rewrite !sapp_assoc).
  rewrite split_app by (rewrite !lacks_app, Ts, Ss; reflexivity).
  cbn [getitem and_then lookup list_lookup].
  change ("data:" +:+ type +:+ "/" +:+ subtype)
    with ("data" +:+ String ":" (type +:+ "/" +:+ subtype)).
  rewrite split_app by reflexivity.
  rewrite split_lacks by (rewrite !lacks_app, Tk, Sk; reflexivity).
  cbn [getitem and_then lookup list_lookup].
  change (type +:+ "/" +:+ subtype) with (type +:+ String "/" subtype).
  rewrite split_app by done. rewrite split_lacks by done.
  reflexivity.
Qed.

Lemma declared_mime_inline (type subtype payload : string) :
  token type = true -> token subtype = true ->
  declared_mime (inline_data type subtype payload) = Some (type +:+ "/" +:+ subtype).
Proof.
  intros (Tc & Ts & Tk & Tl)%token_lacks (Sc & Ss & Sk & Sl)%token_lacks.
  unfold declared_mime, inline_data, Py.startswith.
  rewrite prefix_app.
  change 5 with (String.length "data:"). rewrite drop_app_length_str.
  replace (type +:+ "/" +:+ subtype +:+ ";base64," +:+ payload)
    with ((type +:+ "/" +:+ subtype +:+ ";base64") +:+ String "," payload)
    by (by rewrite !sapp_assoc).
  rewrite partition_app by (rewrite !lacks_app, Tc, Sc; reflexivity).
  replace (type +:+ "/" +:+ subtype +:+ ";base64")
    with ((type +:+ "/" +:+ subtype) +:+ String ";" "base64")
    by (by rewrite !sapp_assoc).
  rewrite partition_app by (rewrite !lacks_app, Ts, Ss; reflexivity).
  reflexivity.
Qed.

Section images.

Context `{Externals}.

(** What [save_data_uri_as_file] does on a well-formed inline payload: it
    opens the destination, which may be refused; it decodes the payload,
    which may fail and then leaves the file empty; else it writes the file
    and returns its path. *)
Lemma save_data_uri_run (type subtype payload dest_folder default_filename : string)
    (w : world) :
  token type = true -> token subtype = true ->
  let p := path.join dest_folder (default_filename +:+ "." +:+ subtype) in
  save_data_uri_as_file (inline_data type subtype payload) dest_folder default_filename w
  = if open_refused (disk w) p
    then (Ok None, warned w (st_error (msg_data_uri_save (OSError p))))
    else match base64.b64decode payload with
         | Ok data => (Ok (Some p), with_file p data w)
         | Raise e =>
             (Ok None, warned (with_file p [] w) (st_error (msg_data_uri_save e)))
         end.
Proof.
  intros Ht Hs p. unfold save_data_uri_as_file, try_except.
  assert (Py.startswith (inline_data type subtype payload) "data:" = true) as ->
    by apply prefix_app.
  cbn [negb]. unfold bind at 1, lift at 1.
  rewrite (data_uri_parts_inline _ _ _ Ht Hs). cbn [fst snd]. fold p.
  unfold bind at 1, fs.open_w, on_disk. fold (open_refused (disk w) p).
  destruct (open_refused (disk w) p); [reflexivity |].
  unfold bind at 1, lift at 1.
  destruct (base64.b64decode payload) as [data|e]; [| reflexivity].
  unfold bind, fs.write, on_disk, ret, with_file; cbn.
  by rewrite insert_insert_eq.
Qed.

Lemma splitext_join (a name sub : string) :
  Py.lacks "/" name = true -> Py.all (Ascii.eqb ".") name = false ->
  Py.lacks "/" sub = true -> Py.lacks "." sub = true ->
  path.splitext (path.join a (name +:+ "." +:+ sub))
  = (dir_prefix a +:+ name, "." +:+ sub).
Proof.
  intros Hn Hdots Hs Hd.
  assert (Py.lacks "/" (name +:+ "." +:+ sub) = true) as Hf
    by (rewrite !lacks_app, Hn, Hs; reflexivity).
  rewrite join_relative by by apply lacks_not_startswith.
  unfold path.splitext, path.extsep, path.sep.
  set (X := dir_prefix a).
  assert (Py.rfind "/" (X +:+ name +:+ "." +:+ sub)
          = match X with EmptyString => None | _ => Some (String.length X - 1) end
          /\ match Py.rfind "/" (X +:+ name +:+ "." +:+ sub) with
             | Some i => S i | None => 0 end = String.length X) as [_ Hsep].
  { rewrite rfind_app_lacks by done. subst X.
    destruct (dir_prefix_cases a) as [[_ ->] | [d ->]]; [done |].
    change (d +:+ "/") with (d +:+ String "/" EmptyString).
    rewrite rfind_app_sep by done. rewrite slength_app. simpl.
    destruct (d +:+ String "/" EmptyString) eqn:E; [by destruct d |].
    split; [f_equal; lia | lia]. }
  rewrite Hsep.
  replace (X +:+ name +:+ "." +:+ sub) with ((X +:+ name) +:+ String "." sub)
    by (by rewrite !sapp_assoc).
  rewrite rfind_app_sep by done.
  rewrite (slength_app X name).
  assert ((String.length X <=? String.length X + String.length name)%nat = true) as ->
    by (apply Nat.leb_le; lia).
  replace (String.length X + String.length name - String.length X)
    with (String.length name) by lia.
  rewrite sapp_assoc, drop_app_length_str, take_app_length_str, Hdots. cbn [andb negb].
  rewrite <- (slength_app X name), <- sapp_assoc.
  by rewrite take_app_length_str, drop_app_length_str.
Qed.

Lemma mime_of_path_join (a name sub : string) :
  Py.lacks "/" name = true -> Py.all (Ascii.eqb ".") name = false ->
  Py.lacks "/" sub = true -> Py.lacks "." sub = true ->
  Py.lower sub = sub -> sub <> "svg" ->
  mime_of_path (path.join a (name +:+ "." +:+ sub)) = "image/" +:+ sub.
Proof.
  intros Hn Hdots Hs Hd Hl Hsvg. unfold mime_of_path.
  rewrite splitext_join by done. cbn [snd].
  change (Py.drop 1 ("." +:+ sub)) with sub. rewrite Hl.
  by apply String.eqb_neq in Hsvg as ->.
Qed.

Lemma embed_written (p : string) (data : bytes) (w : world) :
  Py.nonempty p = true ->
  embed_image_as_data_uri (Some p) (with_file p data w)
  = (Ok ("data:" +:+ mime_of_path p +:+ ";base64," +:+ base64.b64encode data),
     with_file p data w).
Proof.
  intros Hp. unfold embed_image_as_data_uri, fs.exists_, fs.isfile.
  rewrite Hp. cbn [with_file disk files]. rewrite lookup_insert_eq.
  rewrite bool_decide_eq_true_2 by eauto. cbn [andb orb negb].
  unfold try_except, bind, fs.read, on_disk, ret. cbn [with_file disk files].
  by rewrite lookup_insert_eq.
Qed.

(** C6 (as amended).  For an inline payload of type [image/<subtype>] whose
    subtype is in lower case, has no dot and is not [svg], saved under a
    plain file name: when [save_data_uri_as_file] returns a path, embedding
    that file gives the inline form [data:image/<subtype>;base64,...] of the
    decoded bytes, which declares the MIME type the payload declared. *)
Theorem data_uri_round_trip (subtype payload dest_folder default_filename p : string)
    (w w1 : world) :
  token subtype = true -> Py.lacks "." subtype = true ->
  Py.lower subtype = subtype -> subtype <> "svg" ->
  Py.lacks "/" default_filename = true ->
  Py.all (Ascii.eqb ".") default_filename = false ->
  save_data_uri_as_file (inline_data "image" subtype payload) dest_folder
    default_filename w = (Ok (Some p), w1) ->
  exists data,
    base64.b64decode payload = Ok data
    /\ embed_image_as_data_uri (Some p) w1
       = (Ok (inline_data "image" subtype (base64.b64encode data)), w1)
    /\ declared_mime (inline_data "image" subtype (base64.b64encode data))
       = declared_mime (inline_data "image" subtype payload)
    /\ declared_mime (inline_data "image" subtype payload)
       = Some ("image/" +:+ subtype).
Proof.
  intros Hs Hdot Hlow Hsvg Hname Hdots Hsave.
  pose proof Hs as (_ & _ & _ & Hsl)%token_lacks.
  rewrite (save_data_uri_run "image" subtype payload) in Hsave by done.
  unfold open_refused in Hsave.
  destruct (Py.nonempty _) eqn:Hp in Hsave; [| done]. cbn [negb orb] in Hsave.
  destruct (_ || _) in Hsave; [done |].
  destruct (base64.b64decode payload) as [data|e]; [| done].
  injection Hsave as <- <-. exists data. split; [done |].
  split.
  - rewrite embed_written by done. by rewrite mime_of_path_join.
  - by rewrite !declared_mime_inline.
Qed.

(** ** The image columns of [process_csv] *)

(** C7.  In a row whose [img1] cell is [data:image/webp;base64,QQ==], and
    with an existing package directory that holds no directory called
    [img1.webp], the column step of [process_csv] succeeds without a
    notice, changes the disk by exactly one file, [img1.webp] in that
    directory, whose content is the single byte 0x41, and replaces the cell
    by the base name [img1.webp]. *)
Theorem process_csv_column_inline_webp (package_folder : string) (r : row) (w : world) :
  r !! "img1" = Some (PyStr "data:image/webp;base64,QQ==") ->
  fs.isdir (disk w) package_folder = true ->
  fs.isdir (disk w) (path.join package_folder "img1.webp") = false ->
  process_csv_column package_folder r "img1" w
  = (Ok (<["img1" := PyStr "img1.webp"]> r),
     with_file (path.join package_folder "img1.webp") [x41] w)
  /\ path.join package_folder "img1.webp" = dir_prefix package_folder +:+ "img1.webp"
  /\ path.basename (path.join package_folder "img1.webp") = "img1.webp".
Proof.
  intros Hr Hdir Hfree.
  split; [| split; [by apply join_relative | by apply basename_join]].
  unfold process_csv_column. rewrite Hr.
  change (Py.nonempty "data:image/webp;base64,QQ==") with true.
  change (Py.startswith "data:image/webp;base64,QQ==" "http") with false.
  change (Py.startswith "data:image/webp;base64,QQ==" "data:") with true.
  cbn iota. unfold bind.
  change "data:image/webp;base64,QQ==" with (inline_data "image" "webp" "QQ==").
  rewrite save_data_uri_run by done.
  change ("img1" +:+ "." +:+ "webp") with "img1.webp".
  assert (Py.nonempty (path.join package_folder "img1.webp") = true) as Hp.
  { rewrite join_relative by done. apply nonempty_true.
    by destruct (dir_prefix package_folder). }
  unfold open_refused. rewrite Hp, Hfree, isdir_dirname_join by done.
  cbn [negb orb].
  change (base64.b64decode "QQ==") with (Ok [x41] : result bytes).
  unfold ret, store_basename. rewrite Hp. by rewrite basename_join.
Qed.

(** C8.  A cell that is neither an [http...] nor a [data:...] value goes
    through the column step of [process_csv] unchanged: the step returns
    the same row and leaves the world, hence every file, as it was. *)
Theorem process_csv_column_opaque (package_folder col v : string) (r : row) (w : world) :
  r !! col = Some (PyStr v) -> opaque v = true ->
  process_csv_column package_folder r col w = (Ok r, w).
Proof.
  intros Hr [Hh Hd]%andb_prop. apply negb_true_iff in Hh, Hd.
  unfold process_csv_column. rewrite Hr, Hh, Hd.
  by destruct (Py.nonempty v).
Qed.

End images.

(** C6, counterexample.  The registered image type
    [image/vnd.microsoft.icon] is saved as [img1.vnd.microsoft.icon]; the
    extension of that file is [.icon], and the file is embedded as
    [image/icon]. *)
Lemma data_uri_round_trip_icon :
  save_data_uri_as_file (inline_data "image" "vnd.microsoft.icon" "QQ==")
    "generated_mails" "img1" demo.w0
  = (Ok (Some "generated_mails/img1.vnd.microsoft.icon"),
     with_file "generated_mails/img1.vnd.microsoft.icon" [x41] demo.w0)
  /\ embed_image_as_data_uri (Some "generated_mails/img1.vnd.microsoft.icon")
       (with_file "generated_mails/img1.vnd.microsoft.icon" [x41] demo.w0)
     = (Ok "data:image/icon;base64,QQ==",
        with_file "generated_mails/img1.vnd.microsoft.icon" [x41] demo.w0)
  /\ declared_mime (inline_data "image" "vnd.microsoft.icon" "QQ==")
     = Some "image/vnd.microsoft.icon"
  /\ declared_mime "data:image/icon;base64,QQ==" = Some "image/icon".
Proof. repeat split; reflexivity. Qed.

(** C6, an instance: the payload of the scenario, [image/webp]. *)
Lemma data_uri_round_trip_witness :
  save_data_uri_as_file (inline_data "image" "webp" "QQ==")
    "generated_mails" "img1" demo.w0
  = (Ok (Some "generated_mails/img1.webp"),
     with_file "generated_mails/img1.webp" [x41] demo.w0)
  /\ exists data,
       base64.b64decode "QQ==" = Ok data
       /\ embed_image_as_data_uri (Some "generated_mails/img1.webp")
            (with_file "generated_mails/img1.webp" [x41] demo.w0)
          = (Ok (inline_data "image" "webp" (base64.b64encode data)),
             with_file "generated_mails/img1.webp" [x41] demo.w0)
       /\ declared_mime (inline_data "image" "webp" (base64.b64encode data))
          = declared_mime (inline_data "image" "webp" "QQ==")
       /\ declared_mime (inline_data "image" "webp" "QQ==") = Some ("image/" +:+ "webp").
Proof.
  split; [reflexivity |].
  apply (data_uri_round_trip "webp" "QQ==" "generated_mails" "img1"
           "generated_mails/img1.webp" demo.w0
           (with_file "generated_mails/img1.webp" [x41] demo.w0));
    first [reflexivity | discriminate].
Defined.

(** C7, an instance: the package directory is the output folder itself. *)
Lemma process_csv_column_inline_webp_witness :
  fs.isdir (disk demo.w0) "generated_mails" = true
  /\ fs.isdir (disk demo.w0) (path.join "generated_mails" "img1.webp") = false
  /\ @process_csv_column demo.env "generated_mails"
       {[ "img1" := PyStr "data:image/webp;base64,QQ==" ]} "img1" demo.w0
     = (Ok (<["img1" := PyStr "img1.webp"]>
              {[ "img1" := PyStr "data:image/webp;base64,QQ==" ]}),
        with_file (path.join "generated_mails" "img1.webp") [x41] demo.w0).
Proof.
  split; [reflexivity |]. split; [reflexivity |].
  apply (@process_csv_column_inline_webp demo.env "generated_mails"
           {[ "img1" := PyStr "data:image/webp;base64,QQ==" ]} demo.w0);
    reflexivity.
Defined.

(** C8, an instance: a bare file name stays as it is. *)
Lemma process_csv_column_opaque_witness :
  opaque "logo.png" = true
  /\ @process_csv_column demo.env "generated_mails/1" {[ "img1" := PyStr "logo.png" ]}
       "img1" demo.w0
     = (Ok {[ "img1" := PyStr "logo.png" ]}, demo.w0).
Proof.
  split; [reflexivity |].
  apply (@process_csv_column_opaque demo.env "generated_mails/1" "img1" "logo.png");
    reflexivity.
Defined.

(** ** [process_csv]: one failing row does not stop the others *)





Lemma silent_ret {A} (a : A) : silent (ret a).
Proof. by intros w. Qed.

Lemma silent_lift {A} (r : result A) : silent (lift r).
Proof. by intros w. Qed.

Lemma silent_on_disk {A} (f : filesystem -> result A * filesystem) : silent (on_disk f).
Proof. intros w. unfold on_disk. by destruct (f (disk w)). Qed.

Lemma silent_bind {A B} (m : M A) (k : A -> M B) :
  silent m -> (forall a, silent (k a)) -> silent (bind m k).
Proof.
  intros Hm Hk w. unfold bind. specialize (Hm w).
  destruct (m w) as [[a|e] w1]; simpl in *; [| done].
  by rewrite Hk.
Qed.

Ltac silence :=
  repeat first
    [ apply silent_ret | apply silent_lift | apply silent_on_disk
    | apply silent_bind; [| intros ?] ].

Lemma runs_quietly_ret {A} (a : A) : runs_quietly (ret a).
Proof. intros w. exists a, w, []. by rewrite app_nil_r; repeat split. Qed.


(** A [try] block that shows nothing, with a handler that shows one notice
    of another kind and returns [v]. *)
Lemma runs_quietly_try {A} (m : M A) (msg : exn -> message) (v : A) :
  silent m -> (forall e, closes_row (st_error (msg e)) = None) ->
  runs_quietly (try_except m (fun e => notify (st_error (msg e)) ;;; ret v)).
Proof.
  intros Hm Hmsg w. unfold try_except. specialize (Hm w).
  destruct (m w) as [[a|e] w1]; simpl in Hm.
  - exists a, w1, []. rewrite app_nil_r. by repeat split.
  - exists v, (warned w1 (st_error (msg e))), [st_error (msg e)].
    split; [done |]. split; [simpl; by rewrite Hm |].
    split; [| done]. cbn [closed_packages]. by rewrite Hmsg.
Qed.

Section packaging.

Context `{Externals}.

Lemma download_image_quiet (image_url dest_folder : string) :
  runs_quietly (download_image image_url dest_folder).
Proof.
  unfold download_image.
  destruct (negb (Py.nonempty image_url)); [apply runs_quietly_ret |].
  destruct (Py.startswith image_url "data:"); [apply runs_quietly_ret |].
  apply (runs_quietly_try _ (msg_download image_url)); [| done].
  unfold fs.open_w, fs.write. silence.
Qed.








Lemma process_csv_loop_cons (template_obj : template)
    (naming_variable : option string) (dynamic_image_columns : option (list string))
    (row_index : nat) (r r1 : row) (rest : list row) (zip_files zip_files' : list string)
    (w w' : world) :
  process_csv_row template_obj naming_variable dynamic_image_columns row_index r
    zip_files w = (Ok (r1, zip_files'), w') ->
  process_csv_loop template_obj naming_variable dynamic_image_columns row_index
    (r :: rest) zip_files w
  = with_row r1 (process_csv_loop template_obj naming_variable dynamic_image_columns
                   (S row_index) rest zip_files' w').
Proof.
  intros E. simpl. unfold bind at 1. rewrite E. cbn [fst snd].
  unfold bind, with_row, ret.
  by destruct (process_csv_loop _ _ _ _ rest zip_files' w') as [[done|e] w2].
Qed.


(** ** The package identifier in [process_csv] *)





End packaging.

(** The scenario of the naming column on the demo libraries: the table of
    one row whose [ID] is 42 gives the package 42 when the naming column is
    [ID], and the package 1 without a naming column. *)
Example process_csv_names_row_42 :
  fst (@process_csv demo.env [ {[ "ID" := PyStr "42" ]} ] "<p>{{ ID }}</p>"
         (Some "ID") None demo.w0)
  = Ok (["42.zip"], [ {[ "ID" := PyStr "42" ]} ])
  /\ notices (snd (@process_csv demo.env [ {[ "ID" := PyStr "42" ]} ] "<p>{{ ID }}</p>"
                     (Some "ID") None demo.w0))
     = [st_info (msg_generated "42")]
  /\ fst (@process_csv demo.env [ {[ "ID" := PyStr "42" ]} ] "<p>{{ ID }}</p>"
            None None demo.w0)
     = Ok (["1.zip"], [ {[ "ID" := PyStr "42" ]} ])
  /\ notices (snd (@process_csv demo.env [ {[ "ID" := PyStr "42" ]} ] "<p>{{ ID }}</p>"
                     None None demo.w0))
     = [st_info (msg_generated "1")].
Proof. repeat split; reflexivity. Qed.


(** The run of [process_csv] on three rows named by their [ID] column: the
    first cannot be rendered, the assets of the second cannot be copied, and
    the third package is produced all the same. *)
Lemma process_csv_demo_run :
  exists rows' w',
    @process_csv demo.env
      [ {[ "ID" := PyStr "bad" ]}; {[ "ID" := PyStr "nocopy" ]};
        {[ "ID" := PyStr "ok"; "img1" := PyStr "data:image/webp;base64,QQ==" ]} ]
      "<p>{{ ID }}</p>" (Some "ID") (Some ["img1"; "img2"]) demo.w0
    = (Ok (["ok.zip"], rows'), w')
    /\ notices w'
       = [st_error (msg_render "bad" (LibraryError "UndefinedError"));
          st_error (msg_copy "nocopy" (OSError "generated_mails/nocopy"));
          st_info (msg_generated "ok")]
    /\ files (disk w') !! "generated_mails/ok/img1.webp" = Some [x41].
Proof. eexists _, _. repeat split; reflexivity. Qed.


(** ** [inline_base_images] *)

Lemma replace_src_data (base_folder group0 src : string) (w : world) :
  Py.startswith src "data:" = true ->
  replace_src base_folder group0 src w = (Ok group0, w).
Proof. intros Hd. unfold replace_src. by rewrite Hd. Qed.

Lemma replace_src_missing (base_folder group0 src : string) (w : world) :
  Py.startswith src "data:" = false ->
  fs.exists_ (disk w) (path.join base_folder src) = false ->
  replace_src base_folder group0 src w = (Ok group0, w).
Proof. intros Hd He. unfold replace_src. by rewrite Hd, He. Qed.

Lemma replace_src_file (base_folder group0 src : string) (data : bytes) (w : world) :
  Py.startswith src "data:" = false ->
  Py.nonempty (path.join base_folder src) = true ->
  files (disk w) !! path.join base_folder src = Some data ->
  replace_src base_folder group0 src w
  = (Ok (Py.replace group0 src
           ("data:" +:+ mime_of_path (path.join base_folder src) +:+ ";base64,"
            +:+ base64.b64encode data)), w).
Proof.
  intros Hd Hp Hf. unfold replace_src. rewrite Hd.
  assert (fs.exists_ (disk w) (path.join base_folder src) = true) as He.
  { unfold fs.exists_, fs.isfile. rewrite Hp, Hf.
    by rewrite bool_decide_eq_true_2 by eauto. }
  rewrite He. unfold bind at 1, embed_image_as_data_uri. rewrite He. cbn [negb].
  unfold try_except, bind, fs.read, on_disk, ret. rewrite Hf.
  by destruct w as [[? ?] ?].
Qed.

(** C10, the failing runs.  With a file [s] in the base folder the markup
    [<img src=Qs Q>] (Q the double quote) does not keep its attribute: the
    replacement is done on the whole match, where the text [s] also opens
    the attribute name.  With a directory [assets] in the base folder the
    value of [src=Qassets Q] is replaced by nothing, and a notice is shown. *)
Theorem inline_base_images_mangles_match :
  inline_base_images (demo.img_markup "s") "generated_mails" demo.w1
  = (Ok ("<img data:image/;base64,Qg==rc="
         +:+ String (ascii_of_nat 34)
               ("data:image/;base64,Qg==" +:+ String (ascii_of_nat 34) ">")),
     demo.w1)
  /\ inline_base_images (demo.img_markup "assets") "generated_mails" demo.w1
     = (Ok (demo.img_markup EmptyString),
        warned demo.w1
          (st_error (msg_data_uri_convert (OSError "generated_mails/assets")))).
Proof. split; reflexivity. Qed.

(** * Further properties *)

(** ** [base64]: decoding what was encoded *)

Lemma octets_complete (a : N) : (a < 256)%N -> In a octets.
Proof.
  intros Ha. unfold octets. apply in_map_iff. exists (N.to_nat a).
  split; [apply N2Nat.id |]. apply in_seq. lia.
Qed.

Lemma holds_on_octets_spec (f : N -> N -> bool) (a b : N) :
  holds_on_octets f = true -> (a < 256)%N -> (b < 256)%N -> f a b = true.
Proof.
  unfold holds_on_octets. rewrite forallb_forall. intros Hf Ha Hb.
  specialize (Hf a (octets_complete a Ha)). rewrite forallb_forall in Hf.
  apply Hf. by apply octets_complete.
Qed.

Lemma byte_to_N_lt (x : byte) : (Byte.to_N x < 256)%N.
Proof. by destruct x. Qed.

Lemma byte_of_to_N (x : byte) : base64.byte_of_N (Byte.to_N x) = x.
Proof. by destruct x. Qed.

(** The value of the character that encodes [n] is the low six bits of [n]. *)
Lemma a2b_b2a_char (n : N) :
  base64.a2b_char (base64.b2a_char n) = Some (N.land n 63)
  /\ Ascii.eqb (base64.b2a_char n) "=" = false
  /\ (N_of_ascii (base64.b2a_char n) <? 128)%N = true.
Proof.
  assert (base64.b2a_char n = base64.b2a_char (N.land n 63)) as Hidem.
  { unfold base64.b2a_char. by rewrite <- N.land_assoc. }
  assert (N.land n 63 < 256)%N as Hlt.
  { change 63%N with (N.ones 6). rewrite N.land_ones.
    pose proof (N.mod_upper_bound n (2 ^ 6)%N ltac:(done)). simpl in *. lia. }
  assert (N.land (N.land n 63) 63 = N.land n 63) as Hland
    by (by rewrite <- N.land_assoc).
  rewrite Hidem. revert Hlt Hland. generalize (N.land n 63). clear. intros m Hm Hland.
  pose proof (holds_on_octets_spec
    (fun a _ =>
       match base64.a2b_char (base64.b2a_char a) with
       | Some v => N.eqb v (N.land a 63)
       | None => false
       end
       && negb (Ascii.eqb (base64.b2a_char a) "=")
       && (N_of_ascii (base64.b2a_char a) <? 128)%N) m 0%N
    ltac:(vm_compute; reflexivity) Hm ltac:(lia)) as H.
  apply andb_prop in H as [[H1 H2]%andb_prop H3].
  destruct (base64.a2b_char (base64.b2a_char m)) as [v|]; [| done].
  apply N.eqb_eq in H1 as ->. apply negb_true_iff in H2. by rewrite Hland.
Qed.

(** One step of the decoder on a character of the alphabet. *)
Lemma a2b_loop_char (n : N) (s : string) (quad_pos : nat) (leftchar : N) (pads : nat)
    (out : bytes) :
  base64.a2b_loop (String (base64.b2a_char n) s) quad_pos leftchar pads out
  = let this_ch := N.land n 63 in
    match quad_pos with
    | 0 => base64.a2b_loop s 1 this_ch 0 out
    | 1 => base64.a2b_loop s 2 (N.land this_ch 15) 0
             (out ++ [base64.byte_of_N (N.lor (N.shiftl leftchar 2) (N.shiftr this_ch 4))])
    | 2 => base64.a2b_loop s 3 (N.land this_ch 3) 0
             (out ++ [base64.byte_of_N (N.lor (N.shiftl leftchar 4) (N.shiftr this_ch 2))])
    | _ => base64.a2b_loop s 0 0%N 0
             (out ++ [base64.byte_of_N (N.lor (N.shiftl leftchar 6) this_ch)])
    end.
Proof.
  destruct (a2b_b2a_char n) as (Hv & Hpad & _).
  cbn [base64.a2b_loop]. by rewrite Hpad, Hv.
Qed.

(** The arithmetic of the three bytes of a group, checked on all octets. *)
Lemma first_octet (a b : N) :
  (a < 256)%N -> (b < 256)%N ->
  N.lor (N.shiftl (N.land (N.shiftr a 2) 63) 2)
    (N.shiftr (N.land (N.lor (N.shiftl (N.land a 3) 4) (N.shiftr b 4)) 63) 4) = a.
Proof.
  intros Ha Hb. apply N.eqb_eq.
  by apply (holds_on_octets_spec
    (fun a b => N.eqb (N.lor (N.shiftl (N.land (N.shiftr a 2) 63) 2)
       (N.shiftr (N.land (N.lor (N.shiftl (N.land a 3) 4) (N.shiftr b 4)) 63) 4)) a));
    [vm_compute | |].
Qed.

Lemma second_left (a b : N) :
  (a < 256)%N -> (b < 256)%N ->
  N.land (N.land (N.lor (N.shiftl (N.land a 3) 4) (N.shiftr b 4)) 63) 15 = N.shiftr b 4.
Proof.
  intros Ha Hb. apply N.eqb_eq.
  by apply (holds_on_octets_spec
    (fun a b => N.eqb
       (N.land (N.land (N.lor (N.shiftl (N.land a 3) 4) (N.shiftr b 4)) 63) 15)
       (N.shiftr b 4)));
    [vm_compute | |].
Qed.

Lemma second_octet (b c : N) :
  (b < 256)%N -> (c < 256)%N ->
  N.lor (N.shiftl (N.shiftr b 4) 4)
    (N.shiftr (N.land (N.lor (N.shiftl (N.land b 15) 2) (N.shiftr c 6)) 63) 2) = b.
Proof.
  intros Hb Hc. apply N.eqb_eq.
  by apply (holds_on_octets_spec
    (fun b c => N.eqb (N.lor (N.shiftl (N.shiftr b 4) 4)
       (N.shiftr (N.land (N.lor (N.shiftl (N.land b 15) 2) (N.shiftr c 6)) 63) 2)) b));
    [vm_compute | |].
Qed.

Lemma third_octet (b c : N) :
  (b < 256)%N -> (c < 256)%N ->
  N.lor (N.shiftl
           (N.land (N.land (N.lor (N.shiftl (N.land b 15) 2) (N.shiftr c 6)) 63) 3) 6)
    (N.land c 63) = c.
Proof.
  intros Hb Hc. apply N.eqb_eq.
  by apply (holds_on_octets_spec
    (fun b c => N.eqb
       (N.lor (N.shiftl
          (N.land (N.land (N.lor (N.shiftl (N.land b 15) 2) (N.shiftr c 6)) 63) 3) 6)
          (N.land c 63)) c));
    [vm_compute | |].
Qed.

(** A full group of four characters gives back its three bytes. *)
Lemma a2b_loop_group (x y z : byte) (rest : bytes) (s : string) (out : bytes) :
  base64.a2b_loop (base64.b64encode (x :: y :: z :: rest) +:+ s) 0 0%N 0 out
  = base64.a2b_loop (base64.b64encode rest +:+ s) 0 0%N 0 (out ++ [x; y; z]).
Proof.
  cbn [base64.b64encode]. rewrite !sapp_cons.
  pose proof (byte_to_N_lt x) as Hx. pose proof (byte_to_N_lt y) as Hy.
  pose proof (byte_to_N_lt z) as Hz.
  rewrite a2b_loop_char. cbn zeta iota.
  rewrite a2b_loop_char. cbn zeta iota.
  rewrite first_octet, byte_of_to_N by done.
  rewrite a2b_loop_char. cbn zeta iota.
  rewrite second_left, second_octet, byte_of_to_N by done.
  rewrite a2b_loop_char. cbn zeta iota.
  rewrite third_octet, byte_of_to_N by done.
  by rewrite <- !(assoc_L (++)).
Qed.

Lemma one_octet (a : N) :
  (a < 256)%N ->
  N.lor (N.shiftl (N.land (N.shiftr a 2) 63) 2)
    (N.shiftr (N.land (N.shiftl (N.land a 3) 4) 63) 4) = a.
Proof.
  intros Ha. apply N.eqb_eq.
  by apply (holds_on_octets_spec
    (fun a _ => N.eqb (N.lor (N.shiftl (N.land (N.shiftr a 2) 63) 2)
       (N.shiftr (N.land (N.shiftl (N.land a 3) 4) 63) 4)) a) a 0%N);
    [vm_compute | |].
Qed.

Lemma last_octet (b : N) :
  (b < 256)%N ->
  N.lor (N.shiftl (N.shiftr b 4) 4)
    (N.shiftr (N.land (N.shiftl (N.land b 15) 2) 63) 2) = b.
Proof.
  intros Hb. apply N.eqb_eq.
  by apply (holds_on_octets_spec
    (fun b _ => N.eqb (N.lor (N.shiftl (N.shiftr b 4) 4)
       (N.shiftr (N.land (N.shiftl (N.land b 15) 2) 63) 2)) b) b 0%N);
    [vm_compute | |].
Qed.

(** Induction on a list of bytes, three at a time. *)
Lemma bytes_ind3 (P : bytes -> Prop) :
  P [] -> (forall x, P [x]) -> (forall x y, P [x; y]) ->
  (forall x y z rest, P rest -> P (x :: y :: z :: rest)) ->
  forall data, P data.
Proof.
  intros H0 H1 H2 H3.
  assert (forall data, P data /\ (forall x, P (x :: data))
                       /\ (forall x y, P (x :: y :: data))) as Hall.
  { induction data as [|z data (IH0 & IH1 & IH2)]; [by repeat split |].
    split; [apply IH1 |]. split; [intros x; apply IH2 |].
    intros x y. by apply H3. }
  intros data. apply Hall.
Qed.

Lemma a2b_loop_encoded (data out : bytes) :
  base64.a2b_loop (base64.b64encode data) 0 0%N 0 out = Ok (out ++ data).
Proof.
  revert out. induction data as [| x | x y | x y z rest IH] using bytes_ind3; intros out.
  - simpl. by rewrite app_nil_r.
  - pose proof (byte_to_N_lt x) as Hx. cbn [base64.b64encode].
    rewrite a2b_loop_char. cbn zeta iota.
    rewrite a2b_loop_char. cbn zeta iota.
    by rewrite one_octet, byte_of_to_N by done.
  - pose proof (byte_to_N_lt x) as Hx. pose proof (byte_to_N_lt y) as Hy.
    cbn [base64.b64encode].
    rewrite a2b_loop_char. cbn zeta iota.
    rewrite a2b_loop_char. cbn zeta iota.
    rewrite first_octet, byte_of_to_N by done.
    rewrite a2b_loop_char. cbn zeta iota.
    rewrite second_left, last_octet, byte_of_to_N by done.
    cbn. by rewrite <- (assoc_L (++)).
  - rewrite <- (sapp_nil_r (base64.b64encode (x :: y :: z :: rest))).
    rewrite a2b_loop_group, sapp_nil_r, IH.
    by rewrite <- (assoc_L (++)).
Qed.

Lemma b64encode_ascii (data : bytes) :
  Py.all (fun c => (N_of_ascii c <? 128)%N) (base64.b64encode data) = true.
Proof.
  induction data as [| x | x y | x y z rest IH] using bytes_ind3;
    cbn [base64.b64encode Py.all]; rewrite ?IH;
    repeat match goal with
           | |- context [base64.b2a_char ?n] =>
               let H := fresh in
               destruct (a2b_b2a_char n) as (_ & _ & H); rewrite H; clear H
           end; reflexivity.
Qed.

(** Decoding the encoding of some bytes gives these bytes back. *)
Lemma b64decode_b64encode (data : bytes) :
  base64.b64decode (base64.b64encode data) = Ok data.
Proof.
  unfold base64.b64decode. by rewrite b64encode_ascii, a2b_loop_encoded.
Qed.

(** ** The image helpers *)

Lemma mime_of_path_subtype (image_path : string) :
  mime_of_path image_path = "image" +:+ "/" +:+ image_subtype image_path.
Proof.
  unfold mime_of_path, image_subtype, image_ext.
  by destruct (String.eqb _ "svg").
Qed.

Lemma embed_existing (p : string) (data : bytes) (w : world) :
  Py.nonempty p = true -> files (disk w) !! p = Some data ->
  embed_image_as_data_uri (Some p) w
  = (Ok (inline_data "image" (image_subtype p) (base64.b64encode data)), w).
Proof.
  intros Hp Hf. unfold embed_image_as_data_uri, fs.exists_, fs.isfile.
  rewrite Hp, Hf, bool_decide_eq_true_2 by eauto. cbn [andb orb negb].
  unfold try_except, bind, fs.read, on_disk, ret. rewrite Hf.
  rewrite mime_of_path_subtype. unfold inline_data.
  by destruct w as [[? ?] ?].
Qed.

(** X1.  Embedding an existing file and saving the inline form it returns
    writes a file with the same bytes: its name is the fallback name with
    the lower-cased extension of the original ([svg+xml] for [svg]).  The
    extension must hold none of the four characters that separate the parts
    of the inline form (comma, semicolon, colon, slash), and the
    destination must accept the file. *)
Theorem embed_then_save_keeps_bytes (p dest_folder default_filename : string)
    (data : bytes) (w : world) :
  Py.nonempty p = true -> files (disk w) !! p = Some data ->
  token (image_ext p) = true ->
  let q := path.join dest_folder (default_filename +:+ "." +:+ image_subtype p) in
  open_refused (disk w) q = false ->
  exists data_uri,
    embed_image_as_data_uri (Some p) w = (Ok data_uri, w)
    /\ save_data_uri_as_file data_uri dest_folder default_filename w
       = (Ok (Some q), with_file q data w)
    /\ files (disk (with_file q data w)) !! q = Some data.
Proof.
  intros Hp Hf Htok q Hopen.
  exists (inline_data "image" (image_subtype p) (base64.b64encode data)).
  split; [by apply embed_existing |]. split.
  - assert (token (image_subtype p) = true) as Hsub.
    { unfold image_subtype. by destruct (String.eqb _ "svg"). }
    rewrite save_data_uri_run by done. fold q. rewrite Hopen.
    by rewrite b64decode_b64encode.
  - cbn. apply lookup_insert_eq.
Qed.

(** X1, an instance: the picture [in/logo.PNG] is saved again as [img1.png]. *)
Lemma embed_then_save_keeps_bytes_witness :
  exists data_uri,
    embed_image_as_data_uri (Some "in/logo.PNG") gallery = (Ok data_uri, gallery)
    /\ save_data_uri_as_file data_uri "generated_mails" "img1" gallery
       = (Ok (Some "generated_mails/img1.png"),
          with_file "generated_mails/img1.png" [x41; x42; x43; x44] gallery)
    /\ files (disk (with_file "generated_mails/img1.png" [x41; x42; x43; x44] gallery))
       !! "generated_mails/img1.png" = Some [x41; x42; x43; x44].
Proof.
  apply (embed_then_save_keeps_bytes "in/logo.PNG" "generated_mails" "img1"
           [x41; x42; x43; x44] gallery); reflexivity.
Defined.

(** X2.  The extension of a file name decides the MIME type through its
    lower-case form only: [svg] in any case gives [image/svg+xml], any other
    extension gives [image/] followed by the extension in lower case. *)
Theorem mime_of_path_lower_case (folder name ext : string) :
  Py.lacks "/" name = true -> Py.all (Ascii.eqb ".") name = false ->
  Py.lacks "/" ext = true -> Py.lacks "." ext = true ->
  mime_of_path (path.join folder (name +:+ "." +:+ ext))
  = (if String.eqb (Py.lower ext) "svg" then "image/svg+xml"
     else "image/" +:+ Py.lower ext)
  /\ mime_of_path (path.join folder (name +:+ "." +:+ ext))
     = mime_of_path (path.join folder (name +:+ "." +:+ Py.lower ext)).
Proof.
  intros Hn Hdots Hs Hd.
  assert (forall e, Py.lacks "/" e = true -> Py.lacks "." e = true ->
                    mime_of_path (path.join folder (name +:+ "." +:+ e))
                    = if String.eqb (Py.lower e) "svg" then "image/svg+xml"
                      else "image/" +:+ Py.lower e) as Hmime.
  { intros e He1 He2. unfold mime_of_path. by rewrite splitext_join. }
  split; [by apply Hmime |].
  assert (Py.lower (Py.lower ext) = Py.lower ext) as Hidem.
  { clear. induction ext as [|a s IH]; [done |]. simpl. rewrite IH. f_equal.
    clear. destruct a as [[] [] [] [] [] [] [] []]; reflexivity. }
  assert (forall c, Py.lower_char c = "/"%char -> c = "/"%char) as Hslash
    by (intros c; destruct c as [[] [] [] [] [] [] [] []]; vm_compute; congruence).
  assert (forall c, Py.lower_char c = "."%char -> c = "."%char) as Hdot
    by (intros c; destruct c as [[] [] [] [] [] [] [] []]; vm_compute; congruence).
  assert (forall x, (forall c, Py.lower_char c = x -> c = x) ->
                    forall s, Py.lacks x s = true -> Py.lacks x (Py.lower s) = true)
    as Hlacks.
  { intros x Hx s. induction s as [|a s IH]; [done |]. simpl.
    rewrite !lacks_cons. intros [Ha Hs']%andb_prop. rewrite (IH Hs'), andb_true_r.
    apply negb_true_iff, Ascii.eqb_neq. apply negb_true_iff, Ascii.eqb_neq in Ha.
    intros E. by apply Ha, Hx. }
  rewrite !Hmime, ?Hidem; auto.
Qed.

(** X2, an instance: [plan.SVG] is announced like [plan.svg]. *)
Lemma mime_of_path_lower_case_witness :
  mime_of_path (path.join "in" ("plan" +:+ "." +:+ "SVG")) = "image/svg+xml"
  /\ mime_of_path (path.join "in" ("plan" +:+ "." +:+ "SVG"))
     = mime_of_path (path.join "in" ("plan" +:+ "." +:+ Py.lower "SVG")).
Proof.
  apply (mime_of_path_lower_case "in" "plan" "SVG"); reflexivity.
Defined.

(** X3.  A payload that cannot be decoded costs the destination file its
    content: [save_data_uri_as_file] opens the file before it decodes, so
    it returns [None] with a notice and leaves the file at the destination
    path empty, whatever it held before; no other file changes. *)
Theorem save_undecodable_payload_empties_file
    (type subtype payload dest_folder default_filename : string) (e : exn) (w : world) :
  token type = true -> token subtype = true ->
  let q := path.join dest_folder (default_filename +:+ "." +:+ subtype) in
  open_refused (disk w) q = false ->
  base64.b64decode payload = Raise e ->
  exists w',
    save_data_uri_as_file (inline_data type subtype payload) dest_folder
      default_filename w = (Ok None, w')
    /\ files (disk w') !! q = Some []
    /\ (forall q', q' <> q -> files (disk w') !! q' = files (disk w) !! q')
    /\ notices w' = notices w ++ [st_error (msg_data_uri_save e)].
Proof.
  intros Ht Hs q Hopen Hdec.
  rewrite save_data_uri_run by done. fold q. rewrite Hopen, Hdec.
  eexists. split; [done |]. cbn. split; [apply lookup_insert_eq |].
  split; [| done]. intros q' Hq. by apply lookup_insert_ne.
Qed.

(** X3, an instance: the payload [Q] is one character short, and the
    picture already saved as [s.png] is emptied. *)
Lemma save_undecodable_payload_empties_file_witness :
  files (disk (with_file "generated_mails/s.png" [x42] demo.w0))
    !! "generated_mails/s.png" = Some [x42]
  /\ exists w',
       save_data_uri_as_file (inline_data "image" "png" "Q") "generated_mails" "s"
         (with_file "generated_mails/s.png" [x42] demo.w0) = (Ok None, w')
       /\ files (disk w') !! "generated_mails/s.png" = Some []
       /\ (forall q', q' <> "generated_mails/s.png" ->
             files (disk w') !! q'
             = files (disk (with_file "generated_mails/s.png" [x42] demo.w0)) !! q')
       /\ notices w'
          = notices (with_file "generated_mails/s.png" [x42] demo.w0)
            ++ [st_error (msg_data_uri_save BinasciiError)].
Proof.
  split; [reflexivity |].
  apply (save_undecodable_payload_empties_file "image" "png" "Q" "generated_mails" "s"
           BinasciiError (with_file "generated_mails/s.png" [x42] demo.w0));
    reflexivity.
Defined.

(** X4.  [save_data_uri_as_file] never raises and never makes or removes a
    directory; it changes at most one file, the one named after the fallback
    name and the extension it read off the header; and the path it returns
    is that of a file that exists afterwards. *)
Theorem save_data_uri_confined (data_uri dest_folder default_filename : string)
    (w : world) :
  exists res w',
    save_data_uri_as_file data_uri dest_folder default_filename w = (Ok res, w')
    /\ dirs (disk w') = dirs (disk w)
    /\ (forall q, res = Some q -> is_Some (files (disk w') !! q))
    /\ (forall q', files (disk w') !! q' <> files (disk w) !! q' ->
          exists ext b64data,
            data_uri_parts data_uri = Ok (ext, b64data)
            /\ q' = path.join dest_folder (default_filename +:+ "." +:+ ext)).
Proof.
  unfold save_data_uri_as_file, try_except.
  destruct (Py.startswith data_uri "data:"); cbn [negb].
  2: { exists None, w. unfold ret. repeat split; try done. }
  unfold bind at 1, lift at 1.
  destruct (data_uri_parts data_uri) as [[ext b64data]|e].
  2: { eexists None, _. split; [done |]. cbn. repeat split; try done. }
  cbn [fst snd].
  set (q := path.join dest_folder (default_filename +:+ "." +:+ ext)).
  unfold bind at 1, fs.open_w, on_disk.
  destruct (negb (Py.nonempty q) || fs.isdir (disk w) q
            || negb (fs.isdir (disk w) (path.dirname q))).
  { eexists None, _. split; [done |]. cbn. repeat split; try done. }
  unfold bind at 1, lift at 1.
  destruct (base64.b64decode b64data) as [data|e].
  - eexists (Some q), _. split; [done |]. cbn. split; [done |].
    split.
    + intros ? [= <-]. rewrite lookup_insert_eq. eauto.
    + intros q' Hq'. exists ext, b64data. split; [done |].
      destruct (decide (q' = q)) as [-> | Hne]; [done |].
      exfalso. apply Hq'. by rewrite !lookup_insert_ne.
  - eexists None, _. split; [done |]. cbn. split; [done |]. split; [done |].
    intros q' Hq'. exists ext, b64data. split; [done |].
    destruct (decide (q' = q)) as [-> | Hne]; [done |].
    exfalso. apply Hq'. by rewrite lookup_insert_ne.
Qed.

(** ** [download_image] *)

Lemma split_head (c : ascii) (s : string) :
  exists h t, Py.split c s = h :: t /\ Py.lacks c h = true
              /\ exists rest, s = h +:+ rest.
Proof.
  induction s as [|a s (h & t & E & Hh & rest & Hs)].
  - exists EmptyString, []. repeat split. by exists EmptyString.
  - simpl. destruct (Ascii.eqb a c) eqn:Hac.
    + exists EmptyString, (Py.split c s). repeat split. by exists (String a s).
    + rewrite E. exists (String a h), t. split; [done |]. split.
      * rewrite lacks_cons, Hac. done.
      * exists rest. by rewrite sapp_cons, <- Hs.
Qed.

Lemma getitem_split_head (image_url : string) :
  getitem (Py.split "?" image_url) 0 = Ok (url_path image_url).
Proof.
  unfold url_path. by destruct (split_head "?" image_url) as (h & t & -> & _).
Qed.

Lemma url_path_lacks_query (image_url : string) :
  Py.lacks "?" (url_path image_url) = true.
Proof.
  unfold url_path. by destruct (split_head "?" image_url) as (h & t & -> & Hh & _).
Qed.

Lemma lacks_drop (c : ascii) (n : nat) (s : string) :
  Py.lacks c s = true -> Py.lacks c (Py.drop n s) = true.
Proof.
  revert s. induction n as [|n IH]; intros [|a s]; simpl; try done.
  rewrite lacks_cons. intros [_ Hs]%andb_prop. by apply IH.
Qed.

Lemma rfind_tail_lacks (c : ascii) (s : string) :
  match Py.rfind c s with
  | Some i => Py.lacks c (Py.drop (S i) s) = true
  | None => Py.lacks c s = true
  end.
Proof.
  induction s as [|a s IH]; [done |]. simpl.
  destruct (Py.rfind c s) as [i|]; [done |].
  destruct (Ascii.eqb a c) eqn:Hac; simpl.
  - by destruct s.
  - by rewrite lacks_cons, Hac.
Qed.

Lemma basename_lacks_sep (p : string) : Py.lacks "/" (path.basename p) = true.
Proof.
  unfold path.basename, path.sep. pose proof (rfind_tail_lacks "/" p) as H.
  by destruct (Py.rfind "/" p).
Qed.

Lemma basename_lacks (c : ascii) (p : string) :
  Py.lacks c p = true -> Py.lacks c (path.basename p) = true.
Proof.
  intros Hp. unfold path.basename.
  destruct (Py.rfind path.sep p); [by apply lacks_drop | done].
Qed.

Section downloads.

Context `{Externals}.

(** What [download_image] does with an address that is neither empty nor
    inline data. *)
Lemma download_image_run (image_url dest_folder : string) (w : world) :
  image_url <> EmptyString -> Py.startswith image_url "data:" = false ->
  download_image image_url dest_folder w
  = match requests_get image_url with
    | Raise e => (Ok None, warned w (st_error (msg_download image_url e)))
    | Ok response =>
        match raise_for_status response with
        | Raise e => (Ok None, warned w (st_error (msg_download image_url e)))
        | Ok _ =>
            let p := download_path image_url dest_folder in
            if open_refused (disk w) p
            then (Ok None, warned w (st_error (msg_download image_url (OSError p))))
            else (Ok (Some p), with_file p (content response) w)
        end
    end.
Proof.
  intros Hne Hd. apply nonempty_true in Hne.
  unfold download_image. rewrite Hne, Hd. cbn [negb].
  unfold try_except. unfold bind at 1, lift at 1.
  destruct (requests_get image_url) as [response|e]; [| done].
  unfold bind at 1, lift at 1.
  destruct (raise_for_status response) as [[]|e]; [| done].
  unfold bind at 1, lift at 1. rewrite getitem_split_head.
  fold (download_path image_url dest_folder).
  set (p := download_path image_url dest_folder).
  unfold bind at 1, fs.open_w, on_disk. fold (open_refused (disk w) p).
  destruct (open_refused (disk w) p); [done |].
  unfold bind, fs.write, on_disk, ret, with_file; cbn.
  by rewrite insert_insert_eq.
Qed.

(** X5.  A download that succeeds saves the body of the response in the
    destination folder under the last component of the address, the query
    string left out: the path returned has that base name, which holds
    neither a slash nor a question mark, and no notice is shown. *)
Theorem download_image_saves_body (image_url dest_folder : string) (response : Response)
    (w : world) :
  image_url <> EmptyString -> Py.startswith image_url "data:" = false ->
  requests_get image_url = Ok response -> ~ error_status response ->
  open_refused (disk w) (download_path image_url dest_folder) = false ->
  let p := download_path image_url dest_folder in
  download_image image_url dest_folder w = (Ok (Some p), with_file p (content response) w)
  /\ path.basename p = path.basename (url_path image_url)
  /\ Py.lacks "/" (path.basename p) = true
  /\ Py.lacks "?" (path.basename p) = true
  /\ exists query, image_url = url_path image_url +:+ query.
Proof.
  intros Hne Hd Hg Hs Hopen p. subst p.
  rewrite download_image_run, Hg, (raise_for_status_pass _ Hs) by done.
  cbn zeta. rewrite Hopen. split; [done |].
  assert (path.basename (download_path image_url dest_folder)
          = path.basename (url_path image_url)) as Hb.
  { unfold download_path. apply basename_join, basename_lacks_sep. }
  rewrite Hb. split; [done |]. split; [apply basename_lacks_sep |].
  split; [apply basename_lacks, url_path_lacks_query |].
  unfold url_path. destruct (split_head "?" image_url) as (h & t & -> & _ & rest & E).
  by exists rest.
Qed.

(** X6.  [download_image] never raises.  When the request fails or the
    status is a 4xx or 5xx one it returns [None], shows one notice and
    leaves the disk as it was; an address that is inline data comes back
    as it is. *)
Theorem download_image_recovers (image_url dest_folder : string) (w : world) :
  (exists res w', download_image image_url dest_folder w = (Ok res, w'))
  /\ (forall e,
        image_url <> EmptyString -> Py.startswith image_url "data:" = false ->
        requests_get image_url = Raise e
        \/ (exists r, requests_get image_url = Ok r /\ error_status r
                      /\ e = HTTPError (status_code r)) ->
        download_image image_url dest_folder w
        = (Ok None, warned w (st_error (msg_download image_url e))))
  /\ (Py.startswith image_url "data:" = true ->
      download_image image_url dest_folder w = (Ok (Some image_url), w)).
Proof.
  split; [| split].
  - destruct (download_image_quiet image_url dest_folder w) as (res & w' & _ & E & _).
    by exists res, w'.
  - intros e Hne Hd [Hg | (r & Hg & Hs & ->)];
      rewrite download_image_run by done; rewrite Hg; [done |].
    by rewrite (raise_for_status_error _ Hs).
  - intros Hd. unfold download_image. rewrite Hd.
    assert (Py.nonempty image_url = true) as -> by (by destruct image_url).
    done.
Qed.

End downloads.

(** X5, an instance: the picture of the demo server, saved as [s]. *)
Lemma download_image_saves_body_witness :
  @download_image demo.env "http://cdn.example.com/s?v=1" "generated_mails" demo.w0
  = (Ok (Some "generated_mails/s"), with_file "generated_mails/s" [x42] demo.w0)
  /\ path.basename (download_path "http://cdn.example.com/s?v=1" "generated_mails") = "s".
Proof.
  destruct (@download_image_saves_body demo.env "http://cdn.example.com/s?v=1"
              "generated_mails" {| status_code := 200; content := [x42] |} demo.w0)
    as (Hrun & Hb & _); try reflexivity; try discriminate.
  - unfold error_status; simpl; lia.
  - split; [exact Hrun | exact Hb].
Defined.

(** X6, an instance: an address the demo server does not know. *)
Lemma download_image_recovers_witness :
  @download_image demo.env "http://cdn.example.com/none.png" "generated_mails" demo.w0
  = (Ok None,
     warned demo.w0
       (st_error (msg_download "http://cdn.example.com/none.png"
                    (LibraryError "ConnectionError")))).
Proof.
  apply (@download_image_recovers demo.env "http://cdn.example.com/none.png"
           "generated_mails" demo.w0); [discriminate | reflexivity |].
  left. reflexivity.
Defined.

(** ** [process_csv]: numbering, unprotected calls, what happens to a row *)



Section batches.

Context `{Externals}.


(** X8.  The calls of [process_csv] that no [try] block protects end the
    whole batch: a template that does not compile, a package folder that
    cannot be made, an archive that cannot be written (after the notice
    that the package was generated); and once a row has raised, the call
    raises, whatever the rows before it produced. *)
Theorem process_csv_unprotected_calls (naming_variable : option string)
    (dynamic_image_columns : option (list string)) :
  (forall data_rows template_code e w,
     Template template_code = Raise e ->
     process_csv data_rows template_code naming_variable dynamic_image_columns w
     = (Raise e, w))
  /\ (forall template_obj row_index r rest zip_files w e d',
        makedirs (path.join OUTPUT_FOLDER (package_identifier naming_variable r row_index))
          (disk w) = (Raise e, d') ->
        process_csv_loop template_obj naming_variable dynamic_image_columns row_index
          (r :: rest) zip_files w
        = (Raise e, {| disk := d'; notices := notices w |}))
  /\ (forall template_obj row_index r rest zip_files w r1 w1 html w2 w3 e d4,
        let pid := package_identifier naming_variable r row_index in
        let folder := path.join OUTPUT_FOLDER pid in
        process_csv_images folder dynamic_image_columns r w = (Ok r1, w1) ->
        render template_obj r1 = Ok html ->
        on_disk (copytree TEMPLATE_TEMP_FOLDER folder) w1 = (Ok tt, w2) ->
        (fs.open_w (path.join folder "index.html") ;;;
         fs.write (path.join folder "index.html") (utf8_encode html)) w2 = (Ok tt, w3) ->
        make_archive pid folder (disk w3) = (Raise e, d4) ->
        process_csv_loop template_obj naming_variable dynamic_image_columns row_index
          (r :: rest) zip_files w
        = (Raise e, {| disk := d4;
                       notices := notices w3 ++ [st_info (msg_generated pid)] |}))
  /\ (forall template_obj row_index r rest zip_files w r1 zip_files1 w1 e w2,
        process_csv_row template_obj naming_variable dynamic_image_columns row_index r
          zip_files w = (Ok (r1, zip_files1), w1) ->
        process_csv_loop template_obj naming_variable dynamic_image_columns
          (S row_index) rest zip_files1 w1 = (Raise e, w2) ->
        process_csv_loop template_obj naming_variable dynamic_image_columns row_index
          (r :: rest) zip_files w = (Raise e, w2)).
Proof.
  split; [| split; [| split]].
  - intros data_rows template_code e w Ht. unfold process_csv, bind, lift.
    by rewrite Ht.
  - intros template_obj row_index r rest zip_files w e d' Hmk.
    cbn [process_csv_loop]. unfold bind at 1, process_csv_row.
    unfold bind at 1, process_csv_images. unfold bind at 1, on_disk.
    by rewrite Hmk.
  - intros template_obj row_index r rest zip_files w r1 w1 html w2 w3 e d4 pid folder
      Himg Hr Hc Hw Ha.
    cbn [process_csv_loop]. unfold bind at 1, process_csv_row. fold pid folder.
    unfold bind at 1. rewrite Himg, Hr.
    unfold bind at 1, attempt. rewrite Hc.
    unfold bind at 1. rewrite Hw.
    unfold bind, notify, zip_output_for_folder, bind, on_disk. cbn [disk notices].
    by rewrite Ha.
  - intros template_obj row_index r rest zip_files w r1 zip_files1 w1 e w2 Hrow Hrest.
    rewrite (process_csv_loop_cons _ _ _ _ _ _ _ _ _ _ _ Hrow).
    unfold with_row. by rewrite Hrest.
Qed.

End batches.


Lemma localized_refl (cols : list string) (r : row) : localized cols r r.
Proof. split; [done |]. intros k. by left. Qed.

Lemma localized_trans (cols : list string) (r1 r2 r3 : row) :
  localized cols r1 r2 -> localized cols r2 r3 -> localized cols r1 r3.
Proof.
  intros [D1 L1] [D2 L2]. split; [by rewrite D2 |].
  intros k. destruct (L2 k) as [E2 | ?]; [| by right].
  rewrite E2. apply L1.
Qed.

Lemma store_basename_localized (cols : list string) (r : row) (col : string)
    (image_path : option string) :
  col ∈ cols -> is_Some (r !! col) ->
  localized cols r (store_basename r col image_path).
Proof.
  intros Hcol Hr. unfold store_basename.
  destruct image_path as [p|]; [| apply localized_refl].
  destruct (Py.nonempty p); [| apply localized_refl].
  split.
  - rewrite dom_insert_L. apply elem_of_dom in Hr.
    apply subseteq_union_1_L. by apply singleton_subseteq_l.
  - intros k. destruct (decide (k = col)) as [-> | Hne].
    + right. split; [done |]. exists (path.basename p).
      rewrite lookup_insert_eq. split; [done | apply basename_lacks_sep].
    + left. by rewrite lookup_insert_ne.
Qed.

Section rows.

Context `{Externals}.

Lemma process_csv_column_localized (cols : list string) (package_folder col : string)
    (r r' : row) (w w' : world) :
  col ∈ cols ->
  process_csv_column package_folder r col w = (Ok r', w') ->
  localized cols r r'.
Proof.
  intros Hcol. unfold process_csv_column.
  destruct (r !! col) as [[|v]|] eqn:Hr;
    try (intros [= <- <-]; apply localized_refl).
  destruct (Py.nonempty v); [| intros [= <- <-]; apply localized_refl].
  destruct (Py.startswith v "http").
  { unfold bind, ret.
    destruct (download_image v package_folder w) as [[image_path|e] w1]; [| done].
    intros [= <- <-]. apply store_basename_localized; [done | by rewrite Hr]. }
  destruct (Py.startswith v "data:"); [| intros [= <- <-]; apply localized_refl].
  unfold bind, ret.
  destruct (save_data_uri_as_file v package_folder col w) as [[image_path|e] w1];
    [| done].
  intros [= <- <-]. apply store_basename_localized; [done | by rewrite Hr].
Qed.

Lemma process_csv_columns_localized (cols l : list string) (package_folder : string)
    (r r' : row) (w w' : world) :
  l ⊆ cols ->
  process_csv_columns package_folder r l w = (Ok r', w') ->
  localized cols r r'.
Proof.
  revert r w. induction l as [|col l IH]; intros r w Hsub; simpl.
  - intros [= <- <-]. apply localized_refl.
  - unfold bind.
    destruct (process_csv_column package_folder r col w) as [[r1|e] w1] eqn:E1;
      [| done].
    intros E2. eapply localized_trans.
    + eapply process_csv_column_localized; [| exact E1]. set_solver.
    + eapply IH; [| exact E2]. set_solver.
Qed.

Lemma process_csv_images_localized (package_folder : string)
    (dynamic_image_columns : option (list string)) (r r' : row) (w w' : world) :
  process_csv_images package_folder dynamic_image_columns r w = (Ok r', w') ->
  localized (image_columns dynamic_image_columns) r r'.
Proof.
  unfold process_csv_images, bind.
  destruct (on_disk (makedirs package_folder) w) as [[[]|e] w1]; [| done].
  destruct dynamic_image_columns as [cols|]; simpl.
  - by apply process_csv_columns_localized.
  - intros [= <- <-]. apply localized_refl.
Qed.

Lemma process_csv_row_localized (template_obj : template)
    (naming_variable : option string) (dynamic_image_columns : option (list string))
    (row_index : nat) (r r' : row) (zip_files zip_files' : list string) (w w' : world) :
  process_csv_row template_obj naming_variable dynamic_image_columns row_index r
    zip_files w = (Ok (r', zip_files'), w') ->
  localized (image_columns dynamic_image_columns) r r'.
Proof.
  unfold process_csv_row. unfold bind at 1.
  destruct (process_csv_images _ dynamic_image_columns r w) as [[r1|e] w1] eqn:E1;
    [| done].
  apply process_csv_images_localized in E1.
  intros Hrun. assert (r' = r1) as ->; [| done].
  revert Hrun. unfold bind, attempt, notify, ret, zip_output_for_folder, bind, on_disk, ret.
  repeat case_match; intros; by simplify_eq.
Qed.

(** X9.  [process_csv] keeps the keys of every row and changes cells in
    the image columns only; a cell it has changed holds a file name without
    any directory part.  The rows come back in the same number and order. *)
Theorem process_csv_changes_image_cells_only (data_rows rows' : list row)
    (template_code : string) (naming_variable : option string)
    (dynamic_image_columns : option (list string)) (zip_files : list string)
    (w w' : world) :
  process_csv data_rows template_code naming_variable dynamic_image_columns w
  = (Ok (zip_files, rows'), w') ->
  Forall2 (localized (image_columns dynamic_image_columns)) data_rows rows'.
Proof.
  unfold process_csv, bind, lift.
  destruct (Template template_code) as [template_obj|e]; [| done].
  generalize 1 (@nil string). revert rows' zip_files w w'.
  induction data_rows as [|r rest IH]; intros rows' zip_files w w' row_index acc; simpl.
  - intros [= <- <- <-]. constructor.
  - unfold bind at 1.
    destruct (process_csv_row template_obj naming_variable dynamic_image_columns
                row_index r acc w) as [[[r1 acc1]|e] w1] eqn:E1; [| done].
    cbn [fst snd]. unfold bind, ret.
    destruct (process_csv_loop template_obj naming_variable dynamic_image_columns
                (S row_index) rest acc1 w1) as [[[zs rs]|e] w2] eqn:E2; [| done].
    intros [= <- <- <-]. constructor.
    + by eapply process_csv_row_localized.
    + by eapply IH.
Qed.

End rows.

Lemma process_csv_named_run :
  exists zip_files rows' w',
    @process_csv demo.env
      [ {[ "ID" := PyStr "bad" ]}; {[ "ID" := PyStr "nocopy" ]};
        {[ "ID" := PyStr "ok"; "img1" := PyStr "data:image/webp;base64,QQ==" ]} ]
      "<p>{{ ID }}</p>" (Some "ID") (Some ["img1"; "img2"]) demo.w0
    = (Ok (zip_files, rows'), w').
Proof. eexists _, _, _. reflexivity. Qed.

(** X9, an instance: the run of three rows named by their [ID] column. *)
Lemma process_csv_changes_image_cells_only_witness :
  exists zip_files rows' w',
    @process_csv demo.env
      [ {[ "ID" := PyStr "bad" ]}; {[ "ID" := PyStr "nocopy" ]};
        {[ "ID" := PyStr "ok"; "img1" := PyStr "data:image/webp;base64,QQ==" ]} ]
      "<p>{{ ID }}</p>" (Some "ID") (Some ["img1"; "img2"]) demo.w0
    = (Ok (zip_files, rows'), w')
    /\ Forall2 (localized ["img1"; "img2"])
         [ {[ "ID" := PyStr "bad" ]}; {[ "ID" := PyStr "nocopy" ]};
           {[ "ID" := PyStr "ok"; "img1" := PyStr "data:image/webp;base64,QQ==" ]} ]
         rows'.
Proof.
  destruct process_csv_named_run as (zip_files & rows' & w' & E).
  exists zip_files, rows', w'. split; [exact E |].
  exact (@process_csv_changes_image_cells_only demo.env _ _ "<p>{{ ID }}</p>"
           (Some "ID") (Some ["img1"; "img2"]) _ demo.w0 _ E).
Defined.

(** ** [process_scrape_csv]: what the enrichment keeps *)

Section enriching.

Context `{Externals}.

Lemma scrap_page_lead_bound (url : string) (f : ScrapedFields) (w w' : world) :
  scrap_page url w = (Ok f, w') -> String.length (lead f) <= 150.
Proof.
  destruct (fetch_soup url) as [soup|e] eqn:Hf.
  - rewrite (scrap_page_ok _ _ _ Hf). intros [= <- _].
    change (lead (extract_fields soup)) with (Py.take 150 (lead_text soup)).
    rewrite take_length_str. lia.
  - rewrite (scrap_page_failed _ _ _ Hf). intros [= <- _]. simpl. lia.
Qed.

Lemma scrape_block_bounded (url_key title_key img_key lead_key : string) (r : row)
    (w : world) (v : pyval) :
  r !! url_key = Some v ->
  exists f w', scrape_block url_key title_key img_key lead_key r w
               = (Ok (enriched url_key title_key img_key lead_key v f r), w')
               /\ String.length (lead f) <= 150.
Proof.
  intros Hr. destruct (truthy v) eqn:Hv.
  - destruct v as [|u]; [done |]. simpl in Hv. apply nonempty_true in Hv.
    destruct (scrap_page_total u w) as (f & w' & Hs).
    exists f, w'. split; [by eapply scrape_block_scraped |].
    by eapply scrap_page_lead_bound.
  - exists empty_fields, w. split; [by apply scrape_block_skipped |]. simpl. lia.
Qed.

Lemma enrich_row_enriched (r : row) (w : world) :
  is_Some (r !! "url1") -> is_Some (r !! "url2") ->
  exists r' w', enrich_row r w = (Ok r', w') /\ enriched_from r r'.
Proof.
  intros [v1 H1] [v2 H2].
  destruct (scrape_block_bounded "url1" "title1" "img1" "lead1" r w v1 H1)
    as (f1 & w1 & E1 & B1).
  set (r1 := enriched "url1" "title1" "img1" "lead1" v1 f1 r) in *.
  assert (r1 !! "url2" = Some v2) as H2'.
  { unfold r1, enriched. by rewrite !lookup_insert_ne. }
  destruct (scrape_block_bounded "url2" "title2" "img2" "lead2" r1 w1 v2 H2')
    as (f2 & w2 & E2 & B2).
  eexists _, w2. split; [unfold enrich_row, bind; by rewrite E1, E2 |].
  unfold r1, enriched, enriched_from, derived_keys. split; [| split; [| split]].
  - intros k Hk.
    assert (k <> "title1" /\ k <> "img1" /\ k <> "lead1"
            /\ k <> "title2" /\ k <> "img2" /\ k <> "lead2") as (?&?&?&?&?&?).
    { repeat split; intros ->; apply Hk; repeat constructor. }
    destruct (decide (k = "url1")) as [E | ?];
      destruct (decide (k = "url2")) as [E' | ?]; subst; by simplify_map_eq.
  - intros k Hk. repeat (apply elem_of_cons in Hk as [-> | Hk]);
      [| | | | | | by apply elem_of_nil in Hk]; simplify_map_eq; eauto.
  - intros s. simplify_map_eq. by intros [= <-].
  - intros s. simplify_map_eq. by intros [= <-].
Qed.

Lemma enrich_rows_enriched (reader : list row) (w : world) :
  Forall (fun r => is_Some (r !! "url1") /\ is_Some (r !! "url2")) reader ->
  exists rows' w', enrich_rows reader w = (Ok rows', w')
                   /\ Forall2 enriched_from reader rows'.
Proof.
  intros Hall. revert w. induction Hall as [|r rest [H1 H2] _ IH]; intros w.
  - exists [], w. split; [done | constructor].
  - destruct (enrich_row_enriched r w H1 H2) as (r' & w1 & E1 & En).
    destruct (IH w1) as (rows' & w2 & E2 & Ens).
    exists (r' :: rows'), w2. split; [| by constructor].
    simpl. unfold bind, ret. by rewrite E1, E2.
Qed.

(** X10.  On a table whose rows all carry the two URL columns (with any
    value, empty or [None] included) [process_scrape_csv] returns as many
    rows, in the same order; each row keeps every cell outside the six
    derived columns, the URL cells included; the six derived columns hold
    strings, whatever the table held under these names; and the two leads
    have at most 150 characters. *)
Theorem process_scrape_csv_keeps_columns (file_bytes : bytes) (reader : list row)
    (w : world) :
  DictReader file_bytes = Ok reader -> reader <> [] ->
  Forall (fun r => is_Some (r !! "url1") /\ is_Some (r !! "url2")) reader ->
  exists rows' w',
    process_scrape_csv file_bytes w = (Ok rows', w')
    /\ Forall2 enriched_from reader rows'.
Proof.
  intros Hd Hne Hall.
  destruct (enrich_rows_enriched reader w Hall) as (rows' & w' & E & En).
  exists rows', w'. split; [| done].
  unfold process_scrape_csv, bind, lift. rewrite Hd. by destruct reader.
Qed.

End enriching.

(** X10, an instance: the table of the demo with the two URL columns. *)
Lemma process_scrape_csv_keeps_columns_witness :
  exists rows' w',
    @process_scrape_csv demo.env [x02] demo.w0 = (Ok rows', w')
    /\ Forall2 enriched_from
         [ {[ "ID" := PyStr "42"; "url1" := PyStr "https://example.com/a";
              "url2" := PyNone ]} ] rows'.
Proof.
  apply (@process_scrape_csv_keeps_columns demo.env [x02]); [reflexivity | done |].
  repeat constructor; by simplify_map_eq.
Defined.

(** ** [embed_image_as_data_uri] and [inline_base_images]: what they leave alone *)

Lemma embed_image_run (image_path : string) (w : world) :
  exists data_uri w',
    embed_image_as_data_uri (Some image_path) w = (Ok data_uri, w')
    /\ disk w' = disk w
    /\ (data_uri = EmptyString
        \/ exists data,
             files (disk w) !! image_path = Some data
             /\ data_uri = inline_data "image" (image_subtype image_path)
                             (base64.b64encode data)
             /\ w' = w).
Proof.
  unfold embed_image_as_data_uri.
  destruct (fs.exists_ (disk w) image_path) eqn:He; cbn [negb].
  2: { exists EmptyString, w. repeat split. by left. }
  unfold try_except, bind, fs.read, on_disk, ret, notify.
  destruct (files (disk w) !! image_path) as [data|] eqn:Hf.
  - eexists _, _. split; [done |]. split; [done |]. right. exists data.
    split; [done |]. rewrite mime_of_path_subtype. split; [done |].
    by destruct w as [[? ?] ?].
  - eexists _, _. split; [done |]. split; [done |]. by left.
Qed.

(** X11.  [embed_image_as_data_uri] never changes the disk.  On a string
    it never raises: it returns the empty string, or, for the path of a
    regular file, the inline form of the bytes of that file, without a
    notice, and the payload of that inline form decodes to the bytes of the
    file.  On [None], which [download_image] returns for a failed download,
    it raises [TypeError] and shows nothing. *)
Theorem embed_image_reads_only (image_path : option string) (w : world) :
  exists res w',
    embed_image_as_data_uri image_path w = (res, w')
    /\ disk w' = disk w
    /\ match image_path with
       | None => res = Raise TypeError /\ w' = w
       | Some p =>
           exists data_uri,
             res = Ok data_uri
             /\ (data_uri = EmptyString
                 \/ exists data,
                      files (disk w) !! p = Some data
                      /\ data_uri = inline_data "image" (image_subtype p)
                                      (base64.b64encode data)
                      /\ base64.b64decode (base64.b64encode data) = Ok data
                      /\ w' = w)
       end.
Proof.
  destruct image_path as [p|].
  - destruct (embed_image_run p w) as (data_uri & w' & E & Hd & Hres).
    exists (Ok data_uri), w'. split; [done |]. split; [done |].
    exists data_uri. split; [done |].
    destruct Hres as [-> | (data & Hf & -> & ->)]; [by left |].
    right. exists data. by rewrite b64decode_b64encode.
  - by exists (Raise TypeError), w.
Qed.

Lemma replace_src_reads_only (base_folder group0 src : string) (w : world) :
  exists out w', replace_src base_folder group0 src w = (Ok out, w')
                 /\ disk w' = disk w.
Proof.
  unfold replace_src.
  destruct (Py.startswith src "data:"); [by exists group0, w |].
  destruct (fs.exists_ (disk w) (path.join base_folder src)); [| by exists group0, w].
  destruct (embed_image_run (path.join base_folder src) w)
    as (data_uri & w' & E & Hd & _).
  unfold bind, ret. rewrite E. by eexists _, w'.
Qed.

(** X12.  [inline_base_images] never raises and never changes the disk,
    whatever the text and the base folder. *)
Theorem inline_base_images_reads_only (html_text base_folder : string) (w : world) :
  exists out w',
    inline_base_images html_text base_folder w = (Ok out, w') /\ disk w' = disk w.
Proof.
  unfold inline_base_images. generalize 0 as skip. revert w.
  induction html_text as [|c s IH]; intros w skip.
  - destruct skip; by exists EmptyString, w.
  - destruct skip as [|k]; [| apply IH].
    cbn [sub_src]. destruct (match_src (String c s)) as [[group0 src]|].
    + destruct (replace_src_reads_only base_folder group0 src w)
        as (replaced & w1 & E1 & D1).
      destruct (IH w1 (String.length group0 - 1)) as (rest & w2 & E2 & D2).
      exists (replaced +:+ rest), w2. unfold bind, ret. rewrite E1, E2.
      split; [done |]. by rewrite D2.
    + destruct (IH w 0) as (rest & w1 & E1 & D1).
      exists (String c rest), w1. unfold bind, ret. by rewrite E1.
Qed.

Lemma sub_src_skip (base_folder a rest : string) :
  sub_src base_folder (String.length a) (a +:+ rest) = sub_src base_folder 0 rest.
Proof.
  induction a as [|x a IH]; [by destruct rest |].
  rewrite sapp_cons. by cbn [String.length sub_src].
Qed.

Lemma match_src_nonempty (s group0 src : string) :
  match_src s = Some (group0, src) -> exists g, group0 = String "s" g.
Proof.
  unfold match_src. destruct (String.prefix "src=" s); [| done].
  destruct (Py.drop 4 s) as [|q1 rest]; [done |].
  destruct (is_quote q1); [| done].
  destruct (lazy_group rest) as [[g q2]|]; [| done].
  intros [= <- _]. eexists. reflexivity.
Qed.

(** X13.  A text in which every value [src] matched by the pattern starts
    with [data:], or is such that [os.path.join(base_folder, src)] does not
    exist (for an absolute [src] this is [src] itself, outside the base
    folder), comes back from [inline_base_images] as it is, and the world
    is as it was. *)
Theorem inline_base_images_leaves_untouched (html_text base_folder : string) (w : world) :
  untouched base_folder (disk w) html_text ->
  inline_base_images html_text base_folder w = (Ok html_text, w).
Proof.
  unfold inline_base_images. induction 1 as [| c s Hm _ IH | group0 src rest Hm Hsrc _ IH].
  - done.
  - cbn [sub_src]. rewrite Hm. unfold bind, ret. by rewrite IH.
  - destruct (match_src_nonempty _ _ _ Hm) as [g ->].
    rewrite sapp_cons in *. cbn [sub_src]. rewrite Hm.
    unfold bind, ret.
    assert (replace_src base_folder (String "s" g) src w = (Ok (String "s" g), w)) as ->.
    { destruct Hsrc as [Hd | He]; [by apply replace_src_data |].
      destruct (Py.startswith src "data:") eqn:Hd;
        [by apply replace_src_data | by apply replace_src_missing]. }
    replace (String.length (String "s" g) - 1) with (String.length g)
      by (cbn [String.length]; lia).
    rewrite sub_src_skip, IH.
    by rewrite sapp_cons.
Qed.

(** X13, an instance: one value that is inline data, one that names no
    file of the demo disk. *)
Lemma inline_base_images_leaves_untouched_witness :
  inline_base_images
    (src_attribute "data:image/png;base64,QQ==" +:+ src_attribute "gone.png")
    "generated_mails" demo.w0
  = (Ok (src_attribute "data:image/png;base64,QQ==" +:+ src_attribute "gone.png"),
     demo.w0).
Proof.
  apply inline_base_images_leaves_untouched.
  apply (untouched_match _ _ (src_attribute "data:image/png;base64,QQ==")
           "data:image/png;base64,QQ==" (src_attribute "gone.png"));
    [reflexivity | by left |].
  rewrite <- (sapp_nil_r (src_attribute "gone.png")).
  apply (untouched_match _ _ (src_attribute "gone.png") "gone.png" EmptyString);
    [reflexivity | by right | apply untouched_nil].
Defined.
